(** * Metrics collection system: typed accumulators, collector and writer

    A shallow embedding of [MetricSystem.h], [MetricSystem.cpp],
    [MetricUtilities.cpp] and the collector ([MetricCollector], in the
    unnamed source part).

    Modelling choices.
    - The C++ templates [TypedMetricValue<T>] and [TypedMetric<T>] are
      generic over a class [Numeric] that collects exactly the operations the
      template bodies use on [T].  The integral instantiations ([int],
      [long]) are modelled by [Z]; signed overflow is undefined behaviour in
      C++ and is not modelled.  The floating instantiations ([float],
      [double]) are modelled by exact rationals [Q]: results hold up to
      floating rounding.
    - The [std::unique_ptr<Metric>] vector of the collector holds a closed
      tagged union [Metric]; [dynamic_cast<TypedMetric<T>*>] is a match on
      the tag that yields [None] (a null pointer) on a mismatch.
    - Exceptions are the [result] type; [std::cerr] is a list of lines kept in
      the collector state; the output file is an [ofstream] with a buffer and
      the flushed (durable) contents.
    - A time point is represented by its rendering: local-time formatting is
      an external collaborator. *)

From Stdlib Require Import List String Ascii ZArith QArith Qabs Lia Bool.
Import ListNotations.

Local Open Scope Z_scope.

(* ------------------------------------------------------------------ *)
(** ** Rendering helpers ([std::ostream] on numbers) *)

Definition digit (d : Z) : ascii := ascii_of_nat (Z.to_nat (48 + d)).

Fixpoint digits_aux (fuel : nat) (n : Z) (acc : string) : string :=
  match fuel with
  | O => acc
  | S f =>
      let acc' := String (digit (n mod 10)) acc in
      if n <? 10 then acc' else digits_aux f (n / 10) acc'
  end.

(** Decimal digits of a non-negative integer. *)
Definition nat_digits (n : Z) : string :=
  digits_aux (S (Z.to_nat (Z.log2 n))) n EmptyString.

(** [oss << z] for an integral [z]. *)
Definition Z_to_decimal (z : Z) : string :=
  if z <? 0 then String "-" (nat_digits (- z)) else nat_digits z.

(** Round a non-negative rational times 100 to the nearest integer, ties to
    even (what [printf("%.2f")] does on an exact value). *)
Definition round_cents (q : Q) : Z :=
  let x := Qmult q (inject_Z 100) in
  let n := Z.div (Qnum x) (Zpos (Qden x)) in
  match Qcompare (Qminus x (inject_Z n)) (Qmake 1 2) with
  | Lt => n
  | Gt => n + 1
  | Eq => if Z.even n then n else n + 1
  end.

(** [oss << std::fixed << std::setprecision(2) << q]. *)
Definition Q_to_fixed2 (q : Q) : string :=
  let n := round_cents (Qabs q) in
  let frac := n mod 100 in
  let sign := if Qlt_le_dec q 0 then "-"%string else EmptyString in
  (sign ++ nat_digits (n / 100) ++ "."
     ++ (if Z.ltb frac 10 then "0" else EmptyString) ++ nat_digits frac)%string.

(* ------------------------------------------------------------------ *)
(** ** The numeric parameter of the templates *)

(** The operations of [T] used by [TypedMetricValue<T>] and
    [TypedMetric<T>]. *)
Class Numeric (T : Type) := {
  num_zero : T;                  (* T{} *)
  num_add : T -> T -> T;         (* += *)
  num_div : T -> T -> T;         (* / *)
  num_of_count : nat -> T;       (* static_cast<T>(count_) *)
  num_neq_zero : T -> bool;      (* value != T{} *)
  is_floating_point : bool;      (* std::is_floating_point_v<T> *)
  (* what [toString] streams for a value: [std::fixed] with
     [std::setprecision(2)] on floating kinds, plain [oss << v] otherwise *)
  stream_value : T -> string
}.

(** Two's-complement wrap-around of a 32-bit integer.  [int] and [long] are
    both 32 bits wide on the project's MSVC target, and the code never guards
    its [+=] on them. *)
Definition wrap32 (z : Z) : Z := (z + 2^31) mod 2^32 - 2^31.

(** [a += b] on a 32-bit integer. *)
Definition add32 (a b : Z) : Z := wrap32 (a + b).

(** [int] and [long]. *)
#[export] Instance Numeric_Z : Numeric Z := {
  num_zero := 0;
  num_add := add32;
  num_div := Z.quot;
  num_of_count := fun n => wrap32 (Z.of_nat n);
  num_neq_zero := fun z => negb (z =? 0);
  is_floating_point := false;
  stream_value := Z_to_decimal
}.

(** [float] and [double]. *)
#[export] Instance Numeric_Q : Numeric Q := {
  num_zero := 0%Q;
  num_add := Qplus;
  num_div := Qdiv;
  num_of_count := fun n => inject_Z (Z.of_nat n);
  num_neq_zero := fun q => negb (Qeq_bool q 0);
  is_floating_point := true;
  stream_value := Q_to_fixed2
}.

(* ------------------------------------------------------------------ *)
(** ** [TypedMetricValue<T>] *)

Section Typed.
Context {T : Type} `{Numeric T}.

Record TypedMetricValue := {
  value_ : T;
  vcount_ : nat
}.

(** [TypedMetricValue(T value = T{}) : value_(value),
     count_(value != T{} ? 1 : 0)]. *)
Definition mkTypedMetricValue (value : T) : TypedMetricValue :=
  {| value_ := value; vcount_ := if num_neq_zero value then 1%nat else 0%nat |}.

(** [getValue]: [count_ > 0 ? value_ / static_cast<T>(count_) : T{}]. *)
Definition getValue (v : TypedMetricValue) : T :=
  if Nat.ltb 0 (vcount_ v) then num_div (value_ v) (num_of_count (vcount_ v))
  else num_zero.

(** [TypedMetricValue<T>::toString]. *)
Definition toString (v : TypedMetricValue) : string :=
  if Nat.eqb (vcount_ v) 0 then "0"%string else stream_value (getValue v).

(** [TypedMetricValue<T>::reset]. *)
Definition value_reset (v : TypedMetricValue) : TypedMetricValue :=
  {| value_ := num_zero; vcount_ := 0 |}.

(* ------------------------------------------------------------------ *)
(** ** [TypedMetric<T>] (its mutex protects each operation as a whole) *)

Record TypedMetric := {
  name_ : string;
  accumulated_value_ : T;
  count_ : nat
}.

(** [explicit TypedMetric(const std::string& name)]. *)
Definition newTypedMetric (name : string) : TypedMetric :=
  {| name_ := name; accumulated_value_ := num_zero; count_ := 0 |}.

(** [TypedMetric<T>::recordValue(T value)]. *)
Definition recordValue (m : TypedMetric) (value : T) : TypedMetric :=
  {| name_ := name_ m;
     accumulated_value_ := num_add (accumulated_value_ m) value;
     count_ := S (count_ m) |}.

(** [TypedMetric<T>::getAccumulatedValue]. *)
Definition getAccumulatedValue (m : TypedMetric) : TypedMetricValue :=
  if Nat.eqb (count_ m) 0 then mkTypedMetricValue num_zero
  else if is_floating_point then
    mkTypedMetricValue (num_div (accumulated_value_ m) (num_of_count (count_ m)))
  else mkTypedMetricValue (accumulated_value_ m).

(** [TypedMetric<T>::reset]. *)
Definition reset (m : TypedMetric) : TypedMetric :=
  {| name_ := name_ m; accumulated_value_ := num_zero; count_ := 0 |}.

(** A sequence of [recordValue] calls, in order. *)
Definition recordValues (m : TypedMetric) (xs : list T) : TypedMetric :=
  fold_left recordValue xs m.

End Typed.

Arguments TypedMetricValue T : clear implicits.
Arguments TypedMetric T : clear implicits.

(* ------------------------------------------------------------------ *)
(** ** The instantiated kinds: [int], [long], [float], [double] *)

(** The template argument [T] of [registerMetric<T>] / [recordMetric<T>]. *)
Inductive kind := KInt | KLong | KFloat | KDouble.

(** A [std::unique_ptr<Metric>] of the collector: one [TypedMetric<T>]. *)
Inductive Metric :=
| MInt (m : TypedMetric Z)
| MLong (m : TypedMetric Z)
| MFloat (m : TypedMetric Q)
| MDouble (m : TypedMetric Q).

(** A [std::unique_ptr<MetricValue>]: one [TypedMetricValue<T>]. *)
Inductive MetricValue :=
| VInt (v : TypedMetricValue Z)
| VLong (v : TypedMetricValue Z)
| VFloat (v : TypedMetricValue Q)
| VDouble (v : TypedMetricValue Q).

(** The argument [T value] of [recordMetric<T>]. *)
Inductive sample :=
| SInt (z : Z)
| SLong (z : Z)
| SFloat (q : Q)
| SDouble (q : Q).

Definition sample_kind (s : sample) : kind :=
  match s with
  | SInt _ => KInt | SLong _ => KLong | SFloat _ => KFloat | SDouble _ => KDouble
  end.

(** [std::make_unique<TypedMetric<T>>(name)]. *)
Definition newMetric (k : kind) (name : string) : Metric :=
  match k with
  | KInt => MInt (newTypedMetric name)
  | KLong => MLong (newTypedMetric name)
  | KFloat => MFloat (newTypedMetric name)
  | KDouble => MDouble (newTypedMetric name)
  end.

(** [Metric::getName]. *)
Definition getName (m : Metric) : string :=
  match m with
  | MInt t | MLong t => name_ t
  | MFloat t | MDouble t => name_ t
  end.

(** [Metric::getAccumulatedValue], a [std::unique_ptr<MetricValue>]:
    [None] is a null pointer. *)
Definition metric_getAccumulatedValue (m : Metric) : option MetricValue :=
  match m with
  | MInt t => Some (VInt (getAccumulatedValue t))
  | MLong t => Some (VLong (getAccumulatedValue t))
  | MFloat t => Some (VFloat (getAccumulatedValue t))
  | MDouble t => Some (VDouble (getAccumulatedValue t))
  end.

(** [Metric::reset]. *)
Definition metric_reset (m : Metric) : Metric :=
  match m with
  | MInt t => MInt (reset t)
  | MLong t => MLong (reset t)
  | MFloat t => MFloat (reset t)
  | MDouble t => MDouble (reset t)
  end.

(** [MetricValue::toString]. *)
Definition value_toString (v : MetricValue) : string :=
  match v with
  | VInt t | VLong t => toString t
  | VFloat t | VDouble t => toString t
  end.

(** [dynamic_cast<TypedMetric<T>*>(target_metric)] followed, when the cast
    succeeds, by [typed_metric->recordValue(value)]; [None] when the cast
    yields a null pointer. *)
Definition cast_and_record (m : Metric) (s : sample) : option Metric :=
  match m, s with
  | MInt t, SInt z => Some (MInt (recordValue t z))
  | MLong t, SLong z => Some (MLong (recordValue t z))
  | MFloat t, SFloat q => Some (MFloat (recordValue t q))
  | MDouble t, SDouble q => Some (MDouble (recordValue t q))
  | _, _ => None
  end.

(** The number of samples since the last reset, whatever the kind. *)
Definition metric_count (m : Metric) : nat :=
  match m with
  | MInt t | MLong t => count_ t
  | MFloat t | MDouble t => count_ t
  end.

(* ------------------------------------------------------------------ *)
(** ** Exceptions *)

Inductive exn :=
| InvalidArgument (msg : string)   (* std::invalid_argument *)
| RuntimeError (msg : string).     (* std::runtime_error *)

Definition what (e : exn) : string :=
  match e with InvalidArgument m | RuntimeError m => m end.

Inductive result (A : Type) :=
| Ok (a : A)
| Throw (e : exn).
Arguments Ok {A} a.
Arguments Throw {A} e.

(* ------------------------------------------------------------------ *)
(** ** [MetricNameValidator] *)

Definition quote : string := String (ascii_of_nat 34) EmptyString.
Definition newline : string := String (ascii_of_nat 10) EmptyString.

(** The value of a [char]: [char] is signed, bytes above 127 are negative. *)
Definition char_value (c : ascii) : Z :=
  let n := Z.of_nat (nat_of_ascii c) in
  if 128 <=? n then n - 256 else n.

(** The test of the loop of [isValidName]:
    [c] is a double quote, ['\n'], ['\r'], ['\t'], or [c < 32]. *)
Definition invalid_char (c : ascii) : bool :=
  let v := char_value c in
  (v =? 34) || (v =? 10) || (v =? 13) || (v =? 9) || (v <? 32).

Fixpoint no_invalid_char (s : string) : bool :=
  match s with
  | EmptyString => true
  | String c r => negb (invalid_char c) && no_invalid_char r
  end.

(** [MetricNameValidator::isValidName]. *)
Definition isValidName (name : string) : bool :=
  match name with
  | EmptyString => false
  | _ => no_invalid_char name
  end.

(** [MetricNameValidator::formatNameForOutput]. *)
Definition formatNameForOutput (name : string) : result string :=
  if isValidName name then Ok (quote ++ name ++ quote)%string
  else Throw (InvalidArgument ("Cannot format invalid metric name: " ++ name)%string).

(* ------------------------------------------------------------------ *)
(** ** [MetricRegistry] (the [std::unordered_map] as an association list) *)

Definition MetricRegistry := list (string * Metric).

Definition registry_find (name : string) (r : MetricRegistry) : option Metric :=
  option_map snd (find (fun p => String.eqb (fst p) name) r).

(** [MetricRegistry::registerMetric]: the new registry, or the exception
    (the registry is then untouched). *)
Definition registry_registerMetric (name : string) (metric : Metric)
    (r : MetricRegistry) : result unit * MetricRegistry :=
  if negb (isValidName name) then
    (Throw (InvalidArgument ("Invalid metric name: " ++ name)%string), r)
  else match registry_find name r with
  | Some _ => (Throw (InvalidArgument ("Metric already registered: " ++ name)%string), r)
  | None => (Ok tt, r ++ [(name, metric)])
  end.

(* ------------------------------------------------------------------ *)
(** ** [MetricWriter] *)

(** A time point, represented by its [TimestampUtils::formatTimestamp]
    rendering. *)
Definition TimePoint := string.

Definition formatTimestamp (tp : TimePoint) : string := tp.

Record MetricEntry := {
  timestamp : TimePoint;
  entry_name : string;
  entry_value : MetricValue
}.

(** The writer and its [std::ofstream]: [is_open], the stream buffer, and
    what has been flushed to the file. *)
Record MetricWriter := {
  output_file_ : string;
  is_open : bool;
  buffer : string;
  file_contents : string
}.

(** [file_stream_ << s]. *)
Definition stream_write (s : string) (w : MetricWriter) : MetricWriter :=
  {| output_file_ := output_file_ w; is_open := is_open w;
     buffer := (buffer w ++ s)%string; file_contents := file_contents w |}.

(** [file_stream_.flush()]. *)
Definition stream_flush (w : MetricWriter) : MetricWriter :=
  {| output_file_ := output_file_ w; is_open := is_open w;
     buffer := EmptyString; file_contents := (file_contents w ++ buffer w)%string |}.

(** [file_stream_ << std::endl]. *)
Definition stream_endl (w : MetricWriter) : MetricWriter :=
  stream_flush (stream_write newline w).

(** The body of the [try] block of the loop of [writeMetrics], for one
    entry. *)
Definition write_entry (e : MetricEntry) (w : MetricWriter) : result MetricWriter :=
  let timestamp_str := formatTimestamp (timestamp e) in
  match formatNameForOutput (entry_name e) with
  | Throw ex => Throw ex
  | Ok metric_name =>
      let value_str := value_toString (entry_value e) in
      Ok (stream_endl (stream_write
            (timestamp_str ++ " " ++ metric_name ++ " " ++ value_str)%string w))
  end.

(** The loop of [writeMetrics]: a failing entry is logged to [std::cerr]
    and skipped.  Returns the writer and the lines logged. *)
Fixpoint write_entries (es : list MetricEntry) (w : MetricWriter)
    : MetricWriter * list string :=
  match es with
  | [] => (w, [])
  | e :: rest =>
      match write_entry e w with
      | Ok w1 => write_entries rest w1
      | Throw ex =>
          let (w2, errs) := write_entries rest w in
          (w2, ("Error formatting metric entry '" ++ entry_name e ++ "': "
                  ++ what ex)%string :: errs)
      end
  end.

(** [MetricWriter::writeMetrics]. *)
Definition writeMetrics (es : list MetricEntry) (w : MetricWriter)
    : result (MetricWriter * list string) :=
  match es with
  | [] => Ok (w, [])
  | _ =>
      if negb (is_open w) then Throw (RuntimeError "Output file is not open")
      else let (w1, errs) := write_entries es w in Ok (stream_flush w1, errs)
  end.

(** [MetricWriter::close]. *)
Definition writer_close (w : MetricWriter) : MetricWriter :=
  {| output_file_ := output_file_ w; is_open := false;
     buffer := EmptyString; file_contents := (file_contents w ++ buffer w)%string |}.

(* ------------------------------------------------------------------ *)
(** ** [MetricCollector] *)

Record MetricCollector := {
  metrics_ : list Metric;
  running_ : bool;
  writer_ : MetricWriter;
  cerr : list string
}.

Definition set_metrics (ms : list Metric) (st : MetricCollector) : MetricCollector :=
  {| metrics_ := ms; running_ := running_ st; writer_ := writer_ st; cerr := cerr st |}.

Definition set_running (b : bool) (st : MetricCollector) : MetricCollector :=
  {| metrics_ := metrics_ st; running_ := b; writer_ := writer_ st; cerr := cerr st |}.

Definition log_error (line : string) (st : MetricCollector) : MetricCollector :=
  {| metrics_ := metrics_ st; running_ := running_ st; writer_ := writer_ st;
     cerr := cerr st ++ [line] |}.

(** [std::find_if] on the name. *)
Definition find_metric (name : string) (ms : list Metric) : option Metric :=
  find (fun m => String.eqb (getName m) name) ms.

(** Apply [f] to the first metric of that name (the one [find_if] returns). *)
Fixpoint update_first (name : string) (f : Metric -> Metric) (ms : list Metric)
    : list Metric :=
  match ms with
  | [] => []
  | m :: rest =>
      if String.eqb (getName m) name then f m :: rest
      else m :: update_first name f rest
  end.

(** [MetricCollector::registerMetric<T>]: no name validation; on the
    exception the collector is untouched. *)
Definition registerMetric (k : kind) (name : string) (st : MetricCollector)
    : result unit * MetricCollector :=
  match find_metric name (metrics_ st) with
  | Some _ => (Throw (InvalidArgument ("Metric already registered: " ++ name)%string), st)
  | None => (Ok tt, set_metrics (metrics_ st ++ [newMetric k name]) st)
  end.

(** The [if (target_metric)] block of [recordMetric]: the cast, and the
    record when it succeeds; a null cast does nothing. *)
Definition record_found (name : string) (s : sample) (st : MetricCollector)
    : MetricCollector :=
  set_metrics
    (update_first name
       (fun m => match cast_and_record m s with Some m' => m' | None => m end)
       (metrics_ st))
    st.

(** [MetricCollector::recordMetric<T>]. *)
Definition recordMetric (name : string) (s : sample) (st : MetricCollector)
    : MetricCollector :=
  if negb (running_ st) then st
  else match find_metric name (metrics_ st) with
  | Some _ => record_found name s st
  | None =>
      match registerMetric (sample_kind s) name st with
      | (Ok _, st') => record_found name s st'
      | (Throw e, st') =>
          log_error ("Failed to auto-register metric '" ++ name ++ "': " ++ what e)%string st'
      end
  end.

(** What the first locked block of [recordMetric] finds. *)
Definition lookup_found (name : string) (st : MetricCollector) : bool :=
  match find_metric name (metrics_ st) with Some _ => true | None => false end.

(** The rest of [recordMetric<T>], after its first locked block, where
    [found] is what that lookup saw.  [metrics_mutex_] is released in
    between, so [st] is the collector as the thread finds it when it goes
    on: other threads may have changed it since the lookup, registering the
    same name in particular.  Metrics are never removed, so the metric
    found by name is the one [target_metric] points to. *)
Definition recordMetric_resume (name : string) (s : sample) (found : bool)
    (st : MetricCollector) : MetricCollector :=
  if found then record_found name s st
  else match registerMetric (sample_kind s) name st with
  | (Ok _, st') => record_found name s st'
  | (Throw e, st') =>
      log_error ("Failed to auto-register metric '" ++ name ++ "': " ++ what e)%string st'
  end.

(** A sequence of [recordMetric] calls, in order. *)
Definition recordMetrics (calls : list (string * sample)) (st : MetricCollector)
    : MetricCollector :=
  fold_left (fun st c => recordMetric (fst c) (snd c) st) calls st.

(** The first locked block of [collectCurrentMetrics]: the entries built
    from the metrics, keeping those whose accumulated value is a non-null
    pointer. *)
Definition collect_snapshot (ts : TimePoint) (ms : list Metric) : list MetricEntry :=
  flat_map (fun m =>
    match metric_getAccumulatedValue m with
    | Some v => [{| timestamp := ts; entry_name := getName m; entry_value := v |}]
    | None => []
    end) ms.

(** The rest of [collectCurrentMetrics], outside of the first lock: the
    write, then, if it returned, the reset of every metric under the
    second lock. *)
Definition collect_commit (entries : list MetricEntry) (st : MetricCollector)
    : MetricCollector :=
  match entries with
  | [] => st
  | _ =>
      match writeMetrics entries (writer_ st) with
      | Throw e => log_error ("Error writing metrics: " ++ what e)%string st
      | Ok (w, errs) =>
          {| metrics_ := map metric_reset (metrics_ st); running_ := running_ st;
             writer_ := w; cerr := cerr st ++ errs |}
      end
  end.

(** [MetricCollector::collectCurrentMetrics], run with no producer in
    between its two parts. *)
Definition collectCurrentMetrics (ts : TimePoint) (st : MetricCollector)
    : MetricCollector :=
  collect_commit (collect_snapshot ts (metrics_ st)) st.

(** [MetricCollector::flush]. *)
Definition flush (ts : TimePoint) (st : MetricCollector) : MetricCollector :=
  if negb (running_ st) then st else collectCurrentMetrics ts st.

(** [MetricCollector::start] (the worker thread aside). *)
Definition start (st : MetricCollector) : MetricCollector :=
  if running_ st then st else set_running true st.

(** [MetricCollector::stop]: clear the flag, join the worker, final flush. *)
Definition stop (ts : TimePoint) (st : MetricCollector) : MetricCollector :=
  if negb (running_ st) then st
  else collectCurrentMetrics ts (set_running false st).

(** A collector freshly built on a writer. *)
Definition newCollector (w : MetricWriter) : MetricCollector :=
  {| metrics_ := []; running_ := false; writer_ := w; cerr := [] |}.

(** A writer whose file has just been opened. *)
Definition openWriter (file : string) : MetricWriter :=
  {| output_file_ := file; is_open := true; buffer := EmptyString;
     file_contents := EmptyString |}.

(* ------------------------------------------------------------------ *)
(** ** Vocabulary of the statements *)

(** Arithmetic mean and sum of recorded samples. *)
Definition Qsum (xs : list Q) : Q := fold_right Qplus 0%Q xs.
Definition Qmean (xs : list Q) : Q := Qdiv (Qsum xs) (inject_Z (Z.of_nat (List.length xs))).
Definition Zsum (xs : list Z) : Z := fold_right Z.add 0 xs.

(** A value that fits a 32-bit [int] / [long]. *)
Definition int32_ok (z : Z) : bool := (- 2^31 <=? z) && (z <? 2^31).

(** Every running total [acc + x1 + ... + xk] fits 32 bits. *)
Fixpoint partial_sums_ok (acc : Z) (xs : list Z) : bool :=
  match xs with
  | [] => true
  | x :: xs' => int32_ok (acc + x) && partial_sums_ok (acc + x) xs'
  end.

(** The samples fit 32 bits, and so does every [+=] on the accumulator
    started from [T{}]. *)
Definition no_overflow (xs : list Z) : bool :=
  forallb int32_ok xs && partial_sums_ok 0 xs.

(** An empty accumulator: total [T{}] and count zero. *)
Definition metric_empty (m : Metric) : bool :=
  match m with
  | MInt t | MLong t => Z.eqb (accumulated_value_ t) 0 && Nat.eqb (count_ t) 0
  | MFloat t | MDouble t => Qeq_bool (accumulated_value_ t) 0 && Nat.eqb (count_ t) 0
  end.

(** The line of the sink format [<timestamp> "<metric-name>" <rendered-value>]. *)
Definition entry_line (e : MetricEntry) : string :=
  (formatTimestamp (timestamp e) ++ " " ++ quote ++ entry_name e ++ quote ++ " "
     ++ value_toString (entry_value e) ++ newline)%string.

(** What [writeMetrics] logs for an entry it cannot format. *)
Definition entry_error (e : MetricEntry) : string :=
  ("Error formatting metric entry '" ++ entry_name e ++ "': "
     ++ "Cannot format invalid metric name: " ++ entry_name e)%string.

(** Concrete runs. *)
Definition sample_time : TimePoint := "2025-06-01 15:00:01.653"%string.

Definition running_collector : MetricCollector :=
  start (newCollector (openWriter "metrics_output.txt")).

Definition cpu_collector : MetricCollector :=
  snd (registerMetric KDouble "CPU" running_collector).

Definition http_collector : MetricCollector :=
  recordMetric "HTTP" (SInt 10) (snd (registerMetric KInt "HTTP" running_collector)).

Definition failing_sink_collector : MetricCollector :=
  recordMetric "CPU" (SDouble 1)
    (snd (registerMetric KDouble "CPU"
            (start (newCollector (writer_close (openWriter "metrics_output.txt")))))).

(** A double metric whose samples cancel out. *)
Definition cancelling_cpu_metric : TypedMetric Q :=
  recordValues (newTypedMetric "CPU") [Qmake 1 2; Qmake (-1) 2].

(** An idle collector holding a recorded metric. *)
Definition idle_collector : MetricCollector :=
  set_running false http_collector.

(** The lines a batch puts in the sink when every well-named entry is
    written and every badly named one skipped. *)
Definition written_lines (es : list MetricEntry) : string :=
  fold_right (fun e acc =>
    if isValidName (entry_name e) then (entry_line e ++ acc)%string else acc)
    EmptyString es.

(** The log lines of the skipped entries. *)
Definition format_errors (es : list MetricEntry) : list string :=
  flat_map (fun e => if isValidName (entry_name e) then [] else [entry_error e]) es.

(** A batch whose middle entry has an empty (unformattable) name. *)
Definition mixed_entries : list MetricEntry :=
  [ {| timestamp := sample_time; entry_name := "CPU";
       entry_value := VDouble (mkTypedMetricValue (Qmake 3 4)) |};
    {| timestamp := sample_time; entry_name := EmptyString;
       entry_value := VInt (mkTypedMetricValue 1) |};
    {| timestamp := sample_time; entry_name := "HTTP";
       entry_value := VInt (mkTypedMetricValue 30) |} ].

(* ------------------------------------------------------------------ *)
(** ** More of [TypedMetricValue<T>] *)

Section TypedMore.
Context {T : Type} `{Numeric T}.

(** [TypedMetricValue<T>::addValue]: [value_ += val; count_++]. *)
Definition addValue (v : TypedMetricValue T) (x : T) : TypedMetricValue T :=
  {| value_ := num_add (value_ v) x; vcount_ := S (vcount_ v) |}.

Definition addValues (v : TypedMetricValue T) (xs : list T) : TypedMetricValue T :=
  fold_left addValue xs v.

(** The body of [TypedMetricValue<T>::accumulate] once the cast succeeded. *)
Definition typed_accumulate (v other : TypedMetricValue T) : TypedMetricValue T :=
  {| value_ := num_add (value_ v) (value_ other); vcount_ := (vcount_ v + vcount_ other)%nat |}.

End TypedMore.

(** [MetricValue::accumulate]: the [dynamic_cast] of [other] to the
    receiver's type, [std::invalid_argument] when it fails. *)
Definition value_accumulate (v other : MetricValue) : result MetricValue :=
  match v, other with
  | VInt a, VInt b => Ok (VInt (typed_accumulate a b))
  | VLong a, VLong b => Ok (VLong (typed_accumulate a b))
  | VFloat a, VFloat b => Ok (VFloat (typed_accumulate a b))
  | VDouble a, VDouble b => Ok (VDouble (typed_accumulate a b))
  | _, _ => Throw (InvalidArgument "Cannot accumulate different metric value types")
  end.

(** [TypedMetric<T>::recordValue(std::unique_ptr<MetricValue>)]: the cast,
    then [accumulated_value_ += typed_value->getValue(); count_++]. *)
Definition metric_recordValuePtr (m : Metric) (v : MetricValue) : result Metric :=
  match m, v with
  | MInt t, VInt x => Ok (MInt (recordValue t (getValue x)))
  | MLong t, VLong x => Ok (MLong (recordValue t (getValue x)))
  | MFloat t, VFloat x => Ok (MFloat (recordValue t (getValue x)))
  | MDouble t, VDouble x => Ok (MDouble (recordValue t (getValue x)))
  | _, _ => Throw (InvalidArgument ("Invalid metric value type for metric: " ++ getName m)%string)
  end.

(* ------------------------------------------------------------------ *)
(** ** More of [MetricRegistry] and [MetricNameValidator] *)

(** [MetricRegistry::getMetric] ([None] is [nullptr]). *)
Definition getMetric (name : string) (r : MetricRegistry) : option Metric :=
  registry_find name r.

(** [MetricRegistry::hasMetric]. *)
Definition hasMetric (name : string) (r : MetricRegistry) : bool :=
  match registry_find name r with Some _ => true | None => false end.

(** [MetricRegistry::getAllMetricNames]. *)
Definition getAllMetricNames (r : MetricRegistry) : list string := map fst r.

(** [MetricRegistry::size]. *)
Definition registry_size (r : MetricRegistry) : nat := List.length r.

(** [MetricRegistry::clear]. *)
Definition registry_clear (r : MetricRegistry) : MetricRegistry := [].

Definition quote_char : ascii := ascii_of_nat 34.

(** [MetricNameValidator::extractNameFromOutput]. *)
Definition extractNameFromOutput (formattedName : string) : result string :=
  let err := Throw (InvalidArgument ("Invalid formatted metric name: " ++ formattedName)%string) in
  if Nat.ltb (String.length formattedName) 2 then err
  else match String.get 0 formattedName,
             String.get (String.length formattedName - 1) formattedName with
  | Some f, Some b =>
      if Ascii.eqb f quote_char && Ascii.eqb b quote_char
      then Ok (substring 1 (String.length formattedName - 2) formattedName)
      else err
  | _, _ => err
  end.

(* ------------------------------------------------------------------ *)
(** ** Specific metrics ([SpecificMetrics.cpp]) *)

(** Round a non-negative rational times [scale] to the nearest integer,
    ties to even. *)
Definition round_scaled (scale : Z) (q : Q) : Z :=
  let x := Qmult q (inject_Z scale) in
  let n := Z.div (Qnum x) (Zpos (Qden x)) in
  match Qcompare (Qminus x (inject_Z n)) (Qmake 1 2) with
  | Lt => n
  | Gt => n + 1
  | Eq => if Z.even n then n else n + 1
  end.

(** The last [w] decimal digits of [d], with leading zeros. *)
Fixpoint pad_digits (w : nat) (d : Z) : string :=
  match w with
  | O => EmptyString
  | S w' => (pad_digits w' (d / 10) ++ String (digit (d mod 10)) EmptyString)%string
  end.

(** [std::fixed] with [std::setprecision(prec)] on a [double];
    [std::to_string(double)] is [Q_to_fixed 6]. *)
Definition Q_to_fixed (prec : nat) (q : Q) : string :=
  let scale := 10 ^ Z.of_nat prec in
  let n := round_scaled scale (Qabs q) in
  let sign := if Qlt_le_dec q 0 then "-"%string else EmptyString in
  match prec with
  | O => (sign ++ nat_digits n)%string
  | _ => (sign ++ nat_digits (n / scale) ++ "." ++ pad_digits prec (n mod scale))%string
  end.

(** [static_cast<int>] of the [unsigned] [std::thread::hardware_concurrency()]. *)
Definition int_of_unsigned (u : Z) : Z := if u <? 2 ^ 31 then u else u - 2 ^ 32.

Record CPUMetric := {
  cpu_metric : TypedMetric Q;   (* the TypedMetric<double> base *)
  cpu_cores_ : Z;
  max_utilization_ : Q
}.

(** [CPUMetric(name, cores)], [hardware_concurrency] being what
    [std::thread::hardware_concurrency()] returns. *)
Definition newCPUMetric (name : string) (cores hardware_concurrency : Z) : CPUMetric :=
  let c := if cores <=? 0 then
             (let h := int_of_unsigned hardware_concurrency in if h <=? 0 then 1 else h)
           else cores in
  {| cpu_metric := newTypedMetric name; cpu_cores_ := c; max_utilization_ := inject_Z c |}.

(** [CPUMetric::isValidUtilization]. *)
Definition isValidUtilization (m : CPUMetric) (value : Q) : bool :=
  Qle_bool 0 value && Qle_bool value (max_utilization_ m).

(** [CPUMetric::recordValue]. *)
Definition cpu_recordValue (m : CPUMetric) (value : Q) : result CPUMetric :=
  if negb (isValidUtilization m value) then
    Throw (InvalidArgument ("Invalid CPU utilization value: " ++ Q_to_fixed 6 value
             ++ ". Must be between 0 and " ++ Q_to_fixed 6 (max_utilization_ m))%string)
  else Ok {| cpu_metric := recordValue (cpu_metric m) value;
             cpu_cores_ := cpu_cores_ m; max_utilization_ := max_utilization_ m |}.

(** [CPUMetric::getUtilizationPercentage] (the [dynamic_cast] of the
    accumulated value of a [TypedMetric<double>] always succeeds). *)
Definition getUtilizationPercentage (m : CPUMetric) : Q :=
  if cpu_cores_ m =? 0 then 0%Q
  else Qmult (Qdiv (getValue (getAccumulatedValue (cpu_metric m))) (inject_Z (cpu_cores_ m)))
             (inject_Z 100).

(** A caller recording each value and catching the exception of each call. *)
Definition cpu_recordValues (m : CPUMetric) (xs : list Q) : CPUMetric :=
  fold_left (fun m v => match cpu_recordValue m v with Ok m' => m' | Throw _ => m end) xs m.

Record MemoryMetric := {
  mem_metric : TypedMetric Q;   (* the TypedMetric<double> base *)
  peak_usage_ : Q;
  track_peak_ : bool
}.

(** [MemoryMetric(name, trackPeak)]. *)
Definition newMemoryMetric (name : string) (trackPeak : bool) : MemoryMetric :=
  {| mem_metric := newTypedMetric name; peak_usage_ := 0%Q; track_peak_ := trackPeak |}.

(** [MemoryMetric::recordValue]. *)
Definition mem_recordValue (m : MemoryMetric) (memoryMB : Q) : result MemoryMetric :=
  if Qlt_le_dec memoryMB 0 then
    Throw (InvalidArgument ("Memory usage cannot be negative: " ++ Q_to_fixed 6 memoryMB)%string)
  else Ok {| mem_metric := recordValue (mem_metric m) memoryMB;
             peak_usage_ := if track_peak_ m && (if Qlt_le_dec (peak_usage_ m) memoryMB
                                                 then true else false)
                            then memoryMB else peak_usage_ m;
             track_peak_ := track_peak_ m |}.

(** [MemoryMetric::reset]. *)
Definition mem_reset (m : MemoryMetric) : MemoryMetric :=
  {| mem_metric := reset (mem_metric m); peak_usage_ := 0%Q; track_peak_ := track_peak_ m |}.

(** [MemoryMetric::getCurrentUsage]. *)
Definition getCurrentUsage (m : MemoryMetric) : Q :=
  getValue (getAccumulatedValue (mem_metric m)).

Definition mem_recordValues (m : MemoryMetric) (xs : list Q) : MemoryMetric :=
  fold_left (fun m v => match mem_recordValue m v with Ok m' => m' | Throw _ => m end) xs m.

Record HTTPRequestMetric := {
  http_metric : TypedMetric Z;  (* the TypedMetric<int> base *)
  total_requests_ : Z;
  start_time_ : TimePoint;
  last_reset_ : TimePoint
}.

(** [HTTPRequestMetric(name)], constructed at time [now]. *)
Definition newHTTPRequestMetric (name : string) (now : TimePoint) : HTTPRequestMetric :=
  {| http_metric := newTypedMetric name; total_requests_ := 0;
     start_time_ := now; last_reset_ := now |}.

(** [HTTPRequestMetric::recordValue]. *)
Definition http_recordValue (m : HTTPRequestMetric) (requests : Z) : result HTTPRequestMetric :=
  if requests <? 0 then
    Throw (InvalidArgument ("HTTP request count cannot be negative: " ++ Z_to_decimal requests)%string)
  else Ok {| http_metric := recordValue (http_metric m) requests;
             total_requests_ := wrap32 (total_requests_ m + requests);
             start_time_ := start_time_ m; last_reset_ := last_reset_ m |}.

(** [HTTPRequestMetric::reset], at time [now]. *)
Definition http_reset (now : TimePoint) (m : HTTPRequestMetric) : HTTPRequestMetric :=
  {| http_metric := reset (http_metric m); total_requests_ := total_requests_ m;
     start_time_ := start_time_ m; last_reset_ := now |}.

Record NetworkMetric := {
  net_metric : TypedMetric Z;   (* the TypedMetric<long> base *)
  total_bytes_ : Z;
  direction_ : string
}.

(** [NetworkMetric(name, direction)]. *)
Definition newNetworkMetric (name direction : string) : result NetworkMetric :=
  if negb (String.eqb direction "in") && negb (String.eqb direction "out")
     && negb (String.eqb direction "both") then
    Throw (InvalidArgument ("Invalid network direction: " ++ direction
             ++ ". Must be 'in', 'out', or 'both'")%string)
  else Ok {| net_metric := newTypedMetric name; total_bytes_ := 0; direction_ := direction |}.

(** [NetworkMetric::recordValue]. *)
Definition net_recordValue (m : NetworkMetric) (bytes : Z) : result NetworkMetric :=
  if bytes <? 0 then
    Throw (InvalidArgument ("Network bytes cannot be negative: " ++ Z_to_decimal bytes)%string)
  else Ok {| net_metric := recordValue (net_metric m) bytes;
             total_bytes_ := wrap32 (total_bytes_ m + bytes); direction_ := direction_ m |}.

(** [NetworkMetric::reset]: [total_bytes_] is kept. *)
Definition net_reset (m : NetworkMetric) : NetworkMetric :=
  {| net_metric := reset (net_metric m); total_bytes_ := total_bytes_ m;
     direction_ := direction_ m |}.

(** A sequence of calls on a counting metric; a caller catches the
    exception of a rejected record. *)
Inductive counter_op :=
| OpRecord (v : Z)
| OpReset (now : TimePoint).

Definition http_run (ops : list counter_op) (m : HTTPRequestMetric) : HTTPRequestMetric :=
  fold_left (fun m op =>
    match op with
    | OpRecord v => match http_recordValue m v with Ok m' => m' | Throw _ => m end
    | OpReset now => http_reset now m
    end) ops m.

Definition net_run (ops : list counter_op) (m : NetworkMetric) : NetworkMetric :=
  fold_left (fun m op =>
    match op with
    | OpRecord v => match net_recordValue m v with Ok m' => m' | Throw _ => m end
    | OpReset _ => net_reset m
    end) ops m.

(** The values of the records of [ops] that are not negative. *)
Definition accepted (ops : list counter_op) : list Z :=
  flat_map (fun op => match op with
                      | OpRecord v => if v <? 0 then [] else [v]
                      | OpReset _ => []
                      end) ops.

Definition is_reset (op : counter_op) : bool :=
  match op with OpReset _ => true | OpRecord _ => false end.

(* ------------------------------------------------------------------ *)
(** ** [MetricSystemManager] *)

Record MetricSystemManager := {
  collector_ : MetricCollector;
  manager_output_file_ : string;
  is_running_ : bool
}.

(** [MetricSystemManager(output_file)]: [MetricSystemFactory::createSystem]
    builds the writer, which throws on an empty file name. *)
Definition newManager (output_file : string) : result MetricSystemManager :=
  match output_file with
  | EmptyString => Throw (InvalidArgument "Output filename cannot be empty")
  | _ => Ok {| collector_ := newCollector (openWriter output_file);
               manager_output_file_ := output_file; is_running_ := false |}
  end.

Definition with_collector (c : MetricCollector) (m : MetricSystemManager) : MetricSystemManager :=
  {| collector_ := c; manager_output_file_ := manager_output_file_ m; is_running_ := is_running_ m |}.

(** [MetricSystemManager::start]. *)
Definition mgr_start (m : MetricSystemManager) : MetricSystemManager :=
  if is_running_ m then m
  else {| collector_ := start (collector_ m); manager_output_file_ := manager_output_file_ m;
          is_running_ := true |}.

(** [MetricSystemManager::stop]. *)
Definition mgr_stop (ts : TimePoint) (m : MetricSystemManager) : MetricSystemManager :=
  if negb (is_running_ m) then m
  else {| collector_ := stop ts (collector_ m); manager_output_file_ := manager_output_file_ m;
          is_running_ := false |}.

(** [MetricSystemManager::registerMetric<T>]: log and rethrow. *)
Definition mgr_registerMetric (k : kind) (name : string) (m : MetricSystemManager)
    : result unit * MetricSystemManager :=
  match registerMetric k name (collector_ m) with
  | (Ok u, c) => (Ok u, with_collector c m)
  | (Throw e, c) =>
      (Throw e, with_collector
         (log_error ("Failed to register metric '" ++ name ++ "': " ++ what e)%string c) m)
  end.

Definition registerCPUMetric := mgr_registerMetric KDouble.
Definition registerHTTPMetric := mgr_registerMetric KInt.
Definition registerMemoryMetric := mgr_registerMetric KDouble.
Definition registerNetworkMetric := mgr_registerMetric KLong.

(** [MetricSystemManager::recordMetric<T>]. *)
Definition mgr_recordMetric (name : string) (s : sample) (m : MetricSystemManager)
    : MetricSystemManager :=
  if negb (is_running_ m) then m else with_collector (recordMetric name s (collector_ m)) m.

Definition recordCPU (utilization : Q) (name : string) := mgr_recordMetric name (SDouble utilization).
Definition recordHTTPRequests (requests : Z) (name : string) := mgr_recordMetric name (SInt requests).
Definition recordMemoryUsage (memoryMB : Q) (name : string) := mgr_recordMetric name (SDouble memoryMB).
Definition recordNetworkBytes (bytes : Z) (name : string) := mgr_recordMetric name (SLong bytes).

(** [MetricSystemManager::flush]. *)
Definition mgr_flush (ts : TimePoint) (m : MetricSystemManager) : MetricSystemManager :=
  if is_running_ m then with_collector (flush ts (collector_ m)) m else m.

(* ------------------------------------------------------------------ *)
(** ** Sequences of calls and observers *)

(** A sequence of [MetricRegistry::registerMetric] calls, each exception
    caught by the caller. *)
Definition registry_registerAll (calls : list (string * Metric)) (r : MetricRegistry)
    : MetricRegistry :=
  fold_left (fun r c => snd (registry_registerMetric (fst c) (snd c) r)) calls r.

Definition value_count (v : MetricValue) : nat :=
  match v with
  | VInt t | VLong t => vcount_ t
  | VFloat t | VDouble t => vcount_ t
  end.

(** The calls a program makes on a [MetricSystemManager]; an exception
    thrown by a registration is caught by the caller. *)
Inductive mgr_op :=
| MStart
| MStop (ts : TimePoint)
| MRegister (k : kind) (name : string)
| MRecord (name : string) (s : sample)
| MFlush (ts : TimePoint).

Definition mgr_step (m : MetricSystemManager) (op : mgr_op) : MetricSystemManager :=
  match op with
  | MStart => mgr_start m
  | MStop ts => mgr_stop ts m
  | MRegister k name => snd (mgr_registerMetric k name m)
  | MRecord name s => mgr_recordMetric name s m
  | MFlush ts => mgr_flush ts m
  end.

Definition mgr_run (ops : list mgr_op) (m : MetricSystemManager) : MetricSystemManager :=
  fold_left mgr_step ops m.

(** The invariant of a [CPUMetric] that keeps its percentage in range. *)
Definition cpu_inv (m : CPUMetric) : Prop :=
  (1 <= cpu_cores_ m)%Z /\ max_utilization_ m = inject_Z (cpu_cores_ m) /\
  (0 <= accumulated_value_ (cpu_metric m))%Q /\
  (accumulated_value_ (cpu_metric m) <=
     inject_Z (Z.of_nat (count_ (cpu_metric m))) * max_utilization_ m)%Q.

(* ------------------------------------------------------------------ *)
(** ** [ValueFormatter] *)

(** [ValueFormatter::formatDouble]. *)
Definition formatDouble (value : Q) (precision : nat) : string := Q_to_fixed precision value.

(** [ValueFormatter::formatInteger]: [std::to_string(long)]. *)
Definition formatInteger (value : Z) : string := Z_to_decimal value.

(** [ValueFormatter::formatValue<T>] for the instantiated [int], [long],
    [float] and [double] (default precision 2). *)
Definition formatValue (s : sample) : string :=
  match s with
  | SInt z | SLong z => formatInteger z
  | SFloat q | SDouble q => formatDouble q 2
  end.

(** The [getValue] of a [MetricValue], as a value of its type. *)
Definition value_sample (v : MetricValue) : sample :=
  match v with
  | VInt t => SInt (getValue t)
  | VLong t => SLong (getValue t)
  | VFloat t => SFloat (getValue t)
  | VDouble t => SDouble (getValue t)
  end.

(* ================================================================== *)
(** * Properties *)

(** ** Helper lemmas *)

Lemma string_app_assoc (a b c : string) :
  (a ++ (b ++ c))%string = ((a ++ b) ++ c)%string.
Proof. induction a as [|ch a IH]; simpl; [reflexivity | now rewrite IH]. Qed.

Lemma string_app_nil_r (a : string) : (a ++ EmptyString)%string = a.
Proof. induction a as [|ch a IH]; simpl; [reflexivity | now rewrite IH]. Qed.

Lemma recordValues_spec {T : Type} `{Numeric T} (m : TypedMetric T) (xs : list T) :
  recordValues m xs =
  {| name_ := name_ m;
     accumulated_value_ := fold_left num_add xs (accumulated_value_ m);
     count_ := (List.length xs + count_ m)%nat |}.
Proof.
  unfold recordValues. revert m.
  induction xs as [|x xs IH]; intros m; simpl.
  - destruct m; reflexivity.
  - rewrite IH. simpl. f_equal. lia.
Qed.

Lemma fold_left_Qplus (xs : list Q) (a : Q) :
  (fold_left Qplus xs a == a + Qsum xs)%Q.
Proof.
  revert a. induction xs as [|x xs IH]; intros a; simpl.
  - ring.
  - rewrite IH. unfold Qsum. simpl. ring.
Qed.

Lemma wrap32_add_l (a b : Z) : wrap32 (wrap32 a + b) = wrap32 (a + b).
Proof.
  unfold wrap32. f_equal.
  replace (a + 2 ^ 31) with (a + 2 ^ 31) by reflexivity.
  replace ((a + 2 ^ 31) mod 2 ^ 32 - 2 ^ 31 + b + 2 ^ 31)
    with ((a + 2 ^ 31) mod 2 ^ 32 + b) by lia.
  replace (a + b + 2 ^ 31) with ((a + 2 ^ 31) + b) by lia.
  apply Zplus_mod_idemp_l.
Qed.

Lemma wrap32_small (z : Z) : -2^31 <= z < 2^31 -> wrap32 z = z.
Proof.
  intros Hz. unfold wrap32. rewrite Z.mod_small; lia.
Qed.

Lemma wrap32_range (z : Z) : -2^31 <= wrap32 z < 2^31.
Proof.
  unfold wrap32. pose proof (Z.mod_pos_bound (z + 2^31) (2^32)). lia.
Qed.

Lemma wrap32_idem (z : Z) : wrap32 (wrap32 z) = wrap32 z.
Proof. apply wrap32_small, wrap32_range. Qed.

Lemma fold_left_add32 (xs : list Z) (a : Z) :
  fold_left add32 xs (wrap32 a) = wrap32 (a + Zsum xs).
Proof.
  revert a. induction xs as [|x xs IH]; intros a; simpl.
  - now rewrite Z.add_0_r.
  - unfold add32 at 2. rewrite wrap32_add_l, IH. unfold Zsum. simpl. f_equal. lia.
Qed.

Lemma fold_left_add32_0 (xs : list Z) : fold_left add32 xs 0 = wrap32 (Zsum xs).
Proof. change 0 with (wrap32 0) at 1. rewrite fold_left_add32. reflexivity. Qed.

Lemma getValue_mk_Q (q : Q) : (getValue (mkTypedMetricValue q) == q)%Q.
Proof.
  unfold getValue, mkTypedMetricValue. cbn [num_neq_zero Numeric_Q value_ vcount_].
  destruct (Qeq_bool q 0) eqn:E; simpl.
  - apply Qeq_bool_iff in E. symmetry. exact E.
  - unfold Qdiv. simpl. apply Qmult_1_r.
Qed.

Lemma getValue_mk_Z (z : Z) : getValue (mkTypedMetricValue z) = z.
Proof.
  unfold getValue, mkTypedMetricValue. cbn [num_neq_zero Numeric_Z value_ vcount_].
  destruct (z =? 0) eqn:E; simpl.
  - apply Z.eqb_eq in E. now rewrite E.
  - apply Z.quot_1_r.
Qed.

Lemma fractional_value_is_mean (m : TypedMetric Q) (xs : list Q) :
  (getValue (getAccumulatedValue (recordValues (reset m) xs)) == Qmean xs)%Q.
Proof.
  rewrite recordValues_spec. unfold getAccumulatedValue.
  cbn [count_ accumulated_value_ reset num_zero Numeric_Q].
  rewrite Nat.add_0_r.
  destruct xs as [|x xs]; [reflexivity|].
  cbn [Nat.eqb List.length is_floating_point Numeric_Q num_of_count num_div].
  rewrite getValue_mk_Q. unfold Qmean.
  rewrite fold_left_Qplus, Qplus_0_l. reflexivity.
Qed.

Lemma integral_value_is_sum (m : TypedMetric Z) (xs : list Z) :
  getValue (getAccumulatedValue (recordValues (reset m) xs)) = wrap32 (Zsum xs).
Proof.
  rewrite recordValues_spec. unfold getAccumulatedValue.
  cbn [count_ accumulated_value_ reset num_zero Numeric_Z].
  rewrite Nat.add_0_r.
  destruct xs as [|x xs]; [reflexivity|].
  cbn [Nat.eqb List.length is_floating_point Numeric_Z].
  rewrite getValue_mk_Z, fold_left_add32_0. reflexivity.
Qed.

Lemma collect_snapshot_nil (ts : TimePoint) (ms : list Metric) :
  collect_snapshot ts ms = [] -> ms = [].
Proof. destruct ms as [|m ms]; [reflexivity|]. destruct m; discriminate. Qed.

Lemma writeMetrics_open (es : list MetricEntry) (w : MetricWriter) :
  is_open w = true -> exists w' errs, writeMetrics es w = Ok (w', errs).
Proof.
  intros Hopen. unfold writeMetrics.
  destruct es as [|e es]; [exists w, []; reflexivity|].
  rewrite Hopen. cbn [negb]. destruct (write_entries (e :: es) w) as [w1 errs].
  exists (stream_flush w1), errs. reflexivity.
Qed.



Lemma metric_empty_reset (m : Metric) : metric_empty (metric_reset m) = true.
Proof. destruct m; reflexivity. Qed.

Lemma Forall_reset_empty (ms : list Metric) :
  Forall (fun m => metric_empty m = true) (map metric_reset ms).
Proof.
  induction ms as [|m ms IH]; simpl; constructor; [apply metric_empty_reset | exact IH].
Qed.

Lemma int32_ok_spec (z : Z) : int32_ok z = true -> -2^31 <= z < 2^31.
Proof. unfold int32_ok. rewrite andb_true_iff, Z.leb_le, Z.ltb_lt. tauto. Qed.

Lemma partial_sums_ok_sum (acc : Z) (xs : list Z) :
  int32_ok acc = true -> partial_sums_ok acc xs = true -> int32_ok (acc + Zsum xs) = true.
Proof.
  revert acc. induction xs as [|x xs IH]; intros acc Ha Hp; simpl in *.
  - now rewrite Z.add_0_r.
  - apply andb_true_iff in Hp as [H1 H2].
    unfold Zsum in *. cbn [fold_right]. rewrite Z.add_assoc. exact (IH _ H1 H2).
Qed.

Lemma no_overflow_sum (xs : list Z) : no_overflow xs = true -> int32_ok (Zsum xs) = true.
Proof.
  unfold no_overflow. intros H. apply andb_true_iff in H as [_ H].
  exact (partial_sums_ok_sum 0 xs eq_refl H).
Qed.

Lemma collect_commit_metrics (es : list MetricEntry) (st : MetricCollector) :
  metrics_ (collect_commit es st) =
  match es with
  | [] => metrics_ st
  | _ => match writeMetrics es (writer_ st) with
         | Throw _ => metrics_ st
         | Ok _ => map metric_reset (metrics_ st)
         end
  end.
Proof.
  destruct es as [|e es]; [reflexivity|]. unfold collect_commit.
  destruct (writeMetrics (e :: es) (writer_ st)) as [[w errs]|ex]; reflexivity.
Qed.



(** ** C2 *)

(** C2 (amended).  Since its last reset, a floating metric reduces to the
    mean of its samples.  An integral metric reduces to the sum of its
    samples wrapped to 32 bits, which is their exact sum when no running
    total overflows.  After a flush whose write succeeds every accumulator is
    empty (total and count zero); when the write fails the accumulators are
    kept as they are. *)
Theorem flush_value_and_reset :
  (forall (m : TypedMetric Q) (xs : list Q),
     (getValue (getAccumulatedValue (recordValues (reset m) xs)) == Qmean xs)%Q) /\
  (forall (m : TypedMetric Z) (xs : list Z),
     getValue (getAccumulatedValue (recordValues (reset m) xs)) = wrap32 (Zsum xs)) /\
  (forall (m : TypedMetric Z) (xs : list Z), no_overflow xs = true ->
     getValue (getAccumulatedValue (recordValues (reset m) xs)) = Zsum xs) /\
  (forall ts st, is_open (writer_ st) = true ->
     Forall (fun m => metric_empty m = true) (metrics_ (collectCurrentMetrics ts st))) /\
  (forall ts st, is_open (writer_ st) = false ->
     metrics_ (collectCurrentMetrics ts st) = metrics_ st).
Proof.
  split; [exact fractional_value_is_mean|].
  split; [exact integral_value_is_sum|].
  split.
  - intros m xs Hno. rewrite integral_value_is_sum.
    apply wrap32_small, int32_ok_spec, no_overflow_sum, Hno.
  - split.
    + intros ts st Hopen. unfold collectCurrentMetrics. rewrite collect_commit_metrics.
      destruct (collect_snapshot ts (metrics_ st)) as [|e es] eqn:Es.
      * rewrite (collect_snapshot_nil _ _ Es). constructor.
      * destruct (writeMetrics_open (e :: es) (writer_ st) Hopen) as (w & errs & ->).
        apply Forall_reset_empty.
    + intros ts st Hclosed. unfold collectCurrentMetrics. rewrite collect_commit_metrics.
      destruct (collect_snapshot ts (metrics_ st)) as [|e es]; [reflexivity|].
      unfold writeMetrics. rewrite Hclosed. reflexivity.
Qed.

Lemma flush_value_and_reset_witness :
  (no_overflow [10; 20] = true /\
   getValue (getAccumulatedValue (recordValues (reset (newTypedMetric "HTTP" : TypedMetric Z)) [10; 20]))
   = Zsum [10; 20]) /\
  (is_open (writer_ http_collector) = true /\
   Forall (fun m => metric_empty m = true)
     (metrics_ (collectCurrentMetrics sample_time http_collector))).
Proof.
  split.
  - assert (H : no_overflow [10; 20] = true) by reflexivity.
    split; [exact H|].
    exact (proj1 (proj2 (proj2 flush_value_and_reset)) (newTypedMetric "HTTP") [10; 20] H).
  - assert (H : is_open (writer_ http_collector) = true) by reflexivity.
    split; [exact H|].
    exact (proj1 (proj2 (proj2 (proj2 flush_value_and_reset))) sample_time http_collector H).
Defined.

(** C2 fails as stated: when the write fails the accumulator of the flushed
    metric still holds its sample; and an [int] metric fed [INT_MAX] and [1]
    reduces to [INT_MIN], not to their sum. *)
Lemma flush_failed_write_keeps_accumulator :
  map metric_count (metrics_ (collectCurrentMetrics sample_time failing_sink_collector))
  = [1%nat] /\
  getValue (getAccumulatedValue
    (recordValues (reset (newTypedMetric "HTTP" : TypedMetric Z)) [2147483647; 1]))
  = -2147483648 /\
  Zsum [2147483647; 1] = 2147483648.
Proof. split; [vm_compute; reflexivity | split; reflexivity]. Qed.

(** ** C3 *)

(** C3.  A flush resets the metrics only when [writeMetrics] has returned:
    if the write throws, the metrics are exactly what they were; if the
    metrics changed, the write returned normally. *)
Theorem reset_only_after_successful_write (ts : TimePoint) (st : MetricCollector) :
  (forall e, writeMetrics (collect_snapshot ts (metrics_ st)) (writer_ st) = Throw e ->
     metrics_ (collectCurrentMetrics ts st) = metrics_ st) /\
  (metrics_ (collectCurrentMetrics ts st) <> metrics_ st ->
     exists w errs,
       writeMetrics (collect_snapshot ts (metrics_ st)) (writer_ st) = Ok (w, errs)).
Proof.
  unfold collectCurrentMetrics. rewrite collect_commit_metrics. split.
  - intros e He. destruct (collect_snapshot ts (metrics_ st)) as [|e0 es]; [reflexivity|].
    rewrite He. reflexivity.
  - intros Hne. destruct (collect_snapshot ts (metrics_ st)) as [|e0 es];
      [contradiction Hne; reflexivity|].
    destruct (writeMetrics (e0 :: es) (writer_ st)) as [[w errs]|ex].
    + eauto.
    + contradiction Hne; reflexivity.
Qed.

Lemma reset_only_after_successful_write_witness :
  writeMetrics (collect_snapshot sample_time (metrics_ failing_sink_collector))
    (writer_ failing_sink_collector) = Throw (RuntimeError "Output file is not open") /\
  metrics_ (collectCurrentMetrics sample_time failing_sink_collector)
  = metrics_ failing_sink_collector.
Proof.
  assert (H : writeMetrics (collect_snapshot sample_time (metrics_ failing_sink_collector))
                (writer_ failing_sink_collector)
              = Throw (RuntimeError "Output file is not open")) by reflexivity.
  split; [exact H|].
  exact (proj1 (reset_only_after_successful_write sample_time failing_sink_collector) _ H).
Defined.

(** ** C4 *)




(** ** C8 *)

(** C8.  While the collector is idle, [recordMetric] leaves the whole
    collector (metrics, registrations, log, writer) unchanged. *)
Theorem record_while_idle_dropped (name : string) (s : sample) (st : MetricCollector) :
  running_ st = false -> recordMetric name s st = st.
Proof. intros Hidle. unfold recordMetric. rewrite Hidle. reflexivity. Qed.

Lemma record_while_idle_dropped_witness :
  running_ idle_collector = false /\
  recordMetric "HTTP" (SInt 7) idle_collector = idle_collector.
Proof.
  split; [reflexivity|]. apply record_while_idle_dropped. reflexivity.
Defined.

(** ** C10 *)

(** C10.  A floating metric whose reduced value (the sum over the count) is
    zero renders as ["0"]: the rebuilt [TypedMetricValue] has count 0. *)
Theorem zero_fractional_renders_0 (m : TypedMetric Q) :
  (accumulated_value_ m / inject_Z (Z.of_nat (count_ m)) == 0)%Q ->
  toString (getAccumulatedValue m) = "0"%string.
Proof.
  intros Hzero. unfold getAccumulatedValue.
  destruct (Nat.eqb (count_ m) 0); [reflexivity|].
  cbn [is_floating_point Numeric_Q num_div num_of_count].
  unfold toString, mkTypedMetricValue. cbn [num_neq_zero Numeric_Q vcount_].
  apply Qeq_bool_iff in Hzero. rewrite Hzero. reflexivity.
Qed.

Lemma zero_fractional_renders_0_witness :
  (accumulated_value_ cancelling_cpu_metric
     / inject_Z (Z.of_nat (count_ cancelling_cpu_metric)) == 0)%Q /\
  toString (getAccumulatedValue cancelling_cpu_metric) = "0"%string.
Proof.
  assert (H : (accumulated_value_ cancelling_cpu_metric
                 / inject_Z (Z.of_nat (count_ cancelling_cpu_metric)) == 0)%Q)
    by (vm_compute; reflexivity).
  split; [exact H | exact (zero_fractional_renders_0 cancelling_cpu_metric H)].
Defined.

(** ** Registration helpers *)

Lemma getName_newMetric (k : kind) (name : string) : getName (newMetric k name) = name.
Proof. destruct k; reflexivity. Qed.

Lemma find_metric_In (name : string) (ms : list Metric) :
  In name (map getName ms) -> exists m, find_metric name ms = Some m.
Proof.
  induction ms as [|m ms IH]; simpl; [contradiction|].
  intros Hin. destruct (String.eqb (getName m) name) eqn:E; [eauto|].
  destruct Hin as [Heq|Hin].
  - rewrite Heq, String.eqb_refl in E. discriminate.
  - exact (IH Hin).
Qed.

Lemma find_metric_app_none (name : string) (ms ms2 : list Metric) :
  find_metric name ms = None -> find_metric name (ms ++ ms2) = find_metric name ms2.
Proof.
  induction ms as [|m ms IH]; simpl; [reflexivity|].
  destruct (String.eqb (getName m) name); [discriminate | exact IH].
Qed.

Lemma update_first_names (name : string) (f : Metric -> Metric) (ms : list Metric) :
  (forall m, getName (f m) = getName m) ->
  map getName (update_first name f ms) = map getName ms.
Proof.
  intros Hf. induction ms as [|m ms IH]; simpl; [reflexivity|].
  destruct (String.eqb (getName m) name); simpl; rewrite ?Hf, ?IH; reflexivity.
Qed.

Lemma update_first_found (name : string) (f : Metric -> Metric) (ms : list Metric) (m : Metric) :
  find_metric name ms = Some m -> f m = m -> update_first name f ms = ms.
Proof.
  intros Hfind Hf. induction ms as [|m0 ms IH]; simpl in *; [discriminate|].
  destruct (String.eqb (getName m0) name).
  - injection Hfind as ->. now rewrite Hf.
  - now rewrite (IH Hfind).
Qed.

Lemma cast_and_record_name (m : Metric) (s : sample) :
  getName (match cast_and_record m s with Some m' => m' | None => m end) = getName m.
Proof. destruct m, s; reflexivity. Qed.

Lemma record_found_names (name : string) (s : sample) (st : MetricCollector) :
  map getName (metrics_ (record_found name s st)) = map getName (metrics_ st).
Proof. apply update_first_names. intros m. apply cast_and_record_name. Qed.

Lemma recordMetric_keeps_names (n name : string) (s : sample) (st : MetricCollector) :
  In n (map getName (metrics_ st)) ->
  In n (map getName (metrics_ (recordMetric name s st))).
Proof.
  intros Hin. unfold recordMetric. destruct (running_ st); [|exact Hin]. cbn [negb].
  destruct (find_metric name (metrics_ st)).
  - now rewrite record_found_names.
  - unfold registerMetric. destruct (find_metric name (metrics_ st)).
    + exact Hin.
    + rewrite record_found_names. cbn [set_metrics metrics_].
      rewrite map_app. apply in_or_app. now left.
Qed.

Lemma recordMetrics_keeps_names (n : string) (calls : list (string * sample))
    (st : MetricCollector) :
  In n (map getName (metrics_ st)) ->
  In n (map getName (metrics_ (recordMetrics calls st))).
Proof.
  unfold recordMetrics. revert st.
  induction calls as [|c calls IH]; intros st Hin; simpl; [exact Hin|].
  apply IH. now apply recordMetric_keeps_names.
Qed.

(** ** C5 *)

(** C5.  After a successful registration of [name], the collector holds the
    new metric under [name]; any later registration of [name], after any
    records, throws the name-conflict [std::invalid_argument] and leaves the
    collector, hence the first metric and its accumulated state, unchanged. *)
Theorem register_twice_name_conflict (k k' : kind) (name : string)
    (st st' : MetricCollector) :
  registerMetric k name st = (Ok tt, st') ->
  find_metric name (metrics_ st') = Some (newMetric k name) /\
  forall calls : list (string * sample),
    registerMetric k' name (recordMetrics calls st') =
    (Throw (InvalidArgument ("Metric already registered: " ++ name)%string),
     recordMetrics calls st').
Proof.
  unfold registerMetric at 1. destruct (find_metric name (metrics_ st)) eqn:Hnone;
    [discriminate|].
  intros Heq. injection Heq as <-. cbn [set_metrics metrics_]. split.
  - rewrite find_metric_app_none by exact Hnone. simpl.
    now rewrite getName_newMetric, String.eqb_refl.
  - intros calls.
    assert (Hin : In name (map getName (metrics_ (recordMetrics calls
                   (set_metrics (metrics_ st ++ [newMetric k name]) st))))).
    { apply recordMetrics_keeps_names. cbn [set_metrics metrics_].
      rewrite map_app. apply in_or_app. right. simpl.
      rewrite getName_newMetric. now left. }
    destruct (find_metric_In _ _ Hin) as [m Hm].
    unfold registerMetric. now rewrite Hm.
Qed.

Lemma register_twice_name_conflict_witness :
  registerMetric KDouble "CPU" running_collector = (Ok tt, cpu_collector) /\
  registerMetric KInt "CPU" (recordMetrics [("CPU"%string, SDouble 1)] cpu_collector) =
  (Throw (InvalidArgument ("Metric already registered: " ++ "CPU")%string),
   recordMetrics [("CPU"%string, SDouble 1)] cpu_collector).
Proof.
  assert (H : registerMetric KDouble "CPU" running_collector = (Ok tt, cpu_collector))
    by reflexivity.
  split; [exact H|].
  exact (proj2 (register_twice_name_conflict KDouble KInt "CPU" _ _ H)
           [("CPU"%string, SDouble 1)]).
Defined.

(** ** C6 *)

(** C6 (code defect).  [MetricCollector::registerMetric] does not call the
    name validator: the empty name and a name made of a double quote are
    stored, also through the auto-registration of [recordMetric], while
    [isValidName] rejects both and [MetricRegistry::registerMetric] refuses
    them.  [isValidName] itself accepts the control character DEL (127). *)
Theorem collector_accepts_invalid_names :
  registerMetric KDouble EmptyString running_collector =
    (Ok tt, set_metrics [newMetric KDouble EmptyString] running_collector) /\
  registerMetric KDouble quote running_collector =
    (Ok tt, set_metrics [newMetric KDouble quote] running_collector) /\
  map getName (metrics_ (recordMetric EmptyString (SDouble 1) running_collector))
    = [EmptyString] /\
  isValidName EmptyString = false /\ isValidName quote = false /\
  fst (registry_registerMetric EmptyString (newMetric KDouble EmptyString) [])
    = Throw (InvalidArgument "Invalid metric name: ") /\
  isValidName (String (ascii_of_nat 127) EmptyString) = true.
Proof. repeat split; vm_compute; reflexivity. Qed.

(** ** C7 *)

(** C7 (code defect).  On a running collector, a record whose kind differs
    from the kind of the metric found under [name] returns the collector
    unchanged: nothing is recorded, and nothing is written to [std::cerr]
    either, since the null [dynamic_cast] is not reported. *)
Theorem record_kind_mismatch_silently_dropped (name : string) (s : sample)
    (st : MetricCollector) (m : Metric) :
  running_ st = true -> find_metric name (metrics_ st) = Some m ->
  cast_and_record m s = None ->
  recordMetric name s st = st.
Proof.
  intros Hrun Hfind Hcast. unfold recordMetric. rewrite Hrun, Hfind. cbn [negb].
  unfold record_found.
  rewrite (update_first_found name _ (metrics_ st) m Hfind) by now rewrite Hcast.
  destruct st; reflexivity.
Qed.

Lemma record_kind_mismatch_silently_dropped_witness :
  running_ http_collector = true /\
  find_metric "HTTP" (metrics_ http_collector)
    = Some (MInt (recordValue (newTypedMetric "HTTP") 10)) /\
  cast_and_record (MInt (recordValue (newTypedMetric "HTTP") 10)) (SDouble (Qmake 1 2)) = None /\
  recordMetric "HTTP" (SDouble (Qmake 1 2)) http_collector = http_collector.
Proof.
  assert (H1 : running_ http_collector = true) by reflexivity.
  assert (H2 : find_metric "HTTP" (metrics_ http_collector)
                 = Some (MInt (recordValue (newTypedMetric "HTTP") 10))) by reflexivity.
  assert (H3 : cast_and_record (MInt (recordValue (newTypedMetric "HTTP") 10))
                 (SDouble (Qmake 1 2)) = None) by reflexivity.
  split; [exact H1|]. split; [exact H2|]. split; [exact H3|].
  exact (record_kind_mismatch_silently_dropped _ _ _ _ H1 H2 H3).
Defined.

(** ** C1 *)

(** C1 (code defect).  [getAccumulatedValue] never returns a null pointer,
    so the [if (accumulated_value)] test keeps every metric: each registered
    metric gets an entry in every flush.  A double metric [CPU] with no
    sample is written as [CPU] with value ["0"]. *)
Theorem flush_writes_entry_for_empty_metric :
  (forall ts ms, List.length (collect_snapshot ts ms) = List.length ms) /\
  collect_snapshot sample_time (metrics_ cpu_collector) =
    [{| timestamp := sample_time; entry_name := "CPU";
        entry_value := VDouble (mkTypedMetricValue 0%Q) |}] /\
  map metric_count (metrics_ cpu_collector) = [0%nat] /\
  file_contents (writer_ (flush sample_time cpu_collector)) =
    (sample_time ++ " " ++ quote ++ "CPU" ++ quote ++ " 0" ++ newline)%string.
Proof.
  split.
  - intros ts ms. induction ms as [|m ms IH]; [reflexivity|].
    destruct m; simpl; now rewrite IH.
  - repeat split; vm_compute; reflexivity.
Qed.

(** ** C9 *)

Lemma write_entries_spec (es : list MetricEntry) (w : MetricWriter) :
  stream_flush (fst (write_entries es w)) =
    {| output_file_ := output_file_ w; is_open := is_open w; buffer := EmptyString;
       file_contents := (file_contents w ++ buffer w ++ written_lines es)%string |} /\
  snd (write_entries es w) = format_errors es.
Proof.
  revert w. induction es as [|e es IH]; intros w.
  - cbn [write_entries fst snd written_lines format_errors fold_right flat_map].
    unfold stream_flush. now rewrite string_app_nil_r.
  - cbn [write_entries]. unfold write_entry, formatNameForOutput.
    cbn [written_lines format_errors fold_right flat_map].
    fold (written_lines es). fold (format_errors es).
    destruct (isValidName (entry_name e)) eqn:V.
    + destruct (IH (stream_endl (stream_write
          (formatTimestamp (timestamp e) ++ " " ++ (quote ++ entry_name e ++ quote)
             ++ " " ++ value_toString (entry_value e))%string w))) as [H1 H2].
      split; [|exact H2].
      rewrite H1. unfold stream_endl, stream_flush, stream_write, entry_line.
      cbn [output_file_ is_open buffer file_contents].
      rewrite <- !string_app_assoc. reflexivity.
    + destruct (IH w) as [H1 H2].
      destruct (write_entries es w) as [w2 errs]. cbn [fst snd] in *.
      split; [exact H1|]. rewrite H2. reflexivity.
Qed.

(** C9.  On an open writer, a non-empty batch is written entry by entry:
    every entry whose name cannot be formatted is skipped and logged, every
    other entry is appended as its line, and the stream is flushed, so the
    buffer is empty and all lines are in the file when [writeMetrics]
    returns. *)
Theorem writeMetrics_skips_bad_entries (es : list MetricEntry) (w : MetricWriter) :
  is_open w = true -> es <> [] ->
  writeMetrics es w =
  Ok ({| output_file_ := output_file_ w; is_open := true; buffer := EmptyString;
         file_contents := (file_contents w ++ buffer w ++ written_lines es)%string |},
      format_errors es).
Proof.
  intros Hopen Hne. unfold writeMetrics.
  destruct es as [|e es]; [contradiction Hne; reflexivity|].
  rewrite Hopen. cbn [negb].
  destruct (write_entries_spec (e :: es) w) as [H1 H2].
  destruct (write_entries (e :: es) w) as [w1 errs]. cbn [fst snd] in *.
  rewrite H1, H2, Hopen. reflexivity.
Qed.

Lemma writeMetrics_skips_bad_entries_witness :
  is_open (openWriter "metrics_output.txt") = true /\ mixed_entries <> [] /\
  writeMetrics mixed_entries (openWriter "metrics_output.txt") =
  Ok ({| output_file_ := "metrics_output.txt"; is_open := true; buffer := EmptyString;
         file_contents := (EmptyString ++ EmptyString ++ written_lines mixed_entries)%string |},
      format_errors mixed_entries).
Proof.
  split; [reflexivity|]. split; [discriminate|].
  apply (writeMetrics_skips_bad_entries mixed_entries (openWriter "metrics_output.txt"));
    [reflexivity | discriminate].
Defined.

(* ================================================================== *)
(** * Further properties of the code *)

(** ** [MetricRegistry] *)

Lemma registry_find_app_none (name : string) (r r2 : MetricRegistry) :
  registry_find name r = None -> registry_find name (r ++ r2) = registry_find name r2.
Proof.
  unfold registry_find. induction r as [|[n m] r IH]; simpl; [reflexivity|].
  destruct (String.eqb n name); [discriminate | exact IH].
Qed.

Lemma registry_find_single (n name : string) (m : Metric) :
  registry_find n [(name, m)] = if String.eqb name n then Some m else None.
Proof. unfold registry_find. simpl. destruct (String.eqb name n); reflexivity. Qed.

(** A registration of a valid, absent name succeeds; [getMetric] then
    returns the new metric, [size] grows by one and every other name looks
    up as before. *)
Theorem registry_register_then_get (name : string) (metric : Metric) (r : MetricRegistry) :
  isValidName name = true -> hasMetric name r = false ->
  exists r', registry_registerMetric name metric r = (Ok tt, r') /\
    getMetric name r' = Some metric /\
    registry_size r' = S (registry_size r) /\
    (forall n, n <> name -> getMetric n r' = getMetric n r).
Proof.
  intros Hv Hh. unfold hasMetric in Hh.
  destruct (registry_find name r) eqn:F; [discriminate|].
  exists (r ++ [(name, metric)]). unfold registry_registerMetric.
  rewrite Hv, F. cbn [negb]. split; [reflexivity|]. unfold getMetric.
  split; [rewrite registry_find_app_none by exact F; rewrite registry_find_single, String.eqb_refl; reflexivity|].
  split; [unfold registry_size; rewrite length_app; simpl; lia|].
  intros n Hn. clear F.
  induction r as [|[n0 m0] r IH]; unfold registry_find in *; simpl in *.
  - destruct (String.eqb name n) eqn:E; [apply String.eqb_eq in E; congruence | reflexivity].
  - destruct (String.eqb n0 n); [reflexivity | exact IH].
Qed.

Lemma registry_register_then_get_witness :
  exists r', registry_registerMetric "CPU" (newMetric KDouble "CPU") [] = (Ok tt, r') /\
    getMetric "CPU" r' = Some (newMetric KDouble "CPU") /\
    registry_size r' = S (registry_size []) /\
    (forall n, n <> "CPU"%string -> getMetric n r' = getMetric n []).
Proof. apply registry_register_then_get; reflexivity. Defined.

Lemma registry_registerAll_valid_nodup_aux (calls : list (string * Metric)) (r : MetricRegistry) :
  Forall (fun n => isValidName n = true) (getAllMetricNames r) ->
  NoDup (getAllMetricNames r) ->
  Forall (fun n => isValidName n = true) (getAllMetricNames (registry_registerAll calls r)) /\
  NoDup (getAllMetricNames (registry_registerAll calls r)).
Proof.
  unfold registry_registerAll. revert r.
  induction calls as [|[name m] calls IH]; intros r Hv Hn; simpl; [auto|].
  apply IH.
  - unfold registry_registerMetric. destruct (isValidName name) eqn:V; cbn [negb snd]; [|exact Hv].
    destruct (registry_find name r); [exact Hv|]. cbn [snd].
    unfold getAllMetricNames in *. rewrite map_app. apply Forall_app. split; [exact Hv|].
    constructor; [exact V | constructor].
  - unfold registry_registerMetric. destruct (isValidName name); cbn [negb snd]; [|exact Hn].
    destruct (registry_find name r) eqn:F; [exact Hn|]. cbn [snd].
    unfold getAllMetricNames in *. rewrite map_app. simpl.
    apply NoDup_app; [exact Hn | constructor; [intros []| constructor] |].
    intros x Hx [Hy|[]]. subst x.
    apply in_map_iff in Hx as [[n0 m0] [Heq Hin]]. cbn [fst] in Heq. subst n0.
    clear -F Hin. induction r as [|[n1 m1] r IH]; [destruct Hin|].
    unfold registry_find in F. simpl in F.
    destruct (String.eqb n1 name) eqn:E; [discriminate|].
    destruct Hin as [Hin|Hin].
    + injection Hin as <- _. rewrite String.eqb_refl in E. discriminate.
    + exact (IH F Hin).
Qed.

(** Whatever registrations are attempted on an empty registry, the names it
    lists are all valid and pairwise distinct. *)
Theorem registry_names_valid_distinct (calls : list (string * Metric)) :
  Forall (fun n => isValidName n = true) (getAllMetricNames (registry_registerAll calls [])) /\
  NoDup (getAllMetricNames (registry_registerAll calls [])).
Proof. apply registry_registerAll_valid_nodup_aux; constructor. Qed.

(** ** [MetricNameValidator] *)

Lemma invalid_char_false (c : ascii) :
  invalid_char c = false <-> (32 <= nat_of_ascii c < 128 /\ nat_of_ascii c <> 34)%nat.
Proof.
  pose proof (nat_ascii_bounded c) as Hb.
  unfold invalid_char, char_value.
  destruct (Z.leb_spec 128 (Z.of_nat (nat_of_ascii c))) as [Hge|Hlt].
  - rewrite !Bool.orb_false_iff, !Z.eqb_neq, Z.ltb_ge. split; [lia | lia].
  - rewrite !Bool.orb_false_iff, !Z.eqb_neq, Z.ltb_ge. split; [lia | lia].
Qed.

Lemma no_invalid_char_spec (s : string) :
  no_invalid_char s = true <->
  Forall (fun c => (32 <= nat_of_ascii c < 128 /\ nat_of_ascii c <> 34)%nat)
         (list_ascii_of_string s).
Proof.
  induction s as [|c s IH]; simpl; [split; constructor|].
  rewrite Bool.andb_true_iff, Bool.negb_true_iff, invalid_char_false, IH.
  split; [intros [H1 H2]; constructor; assumption | intros H; inversion H; auto].
Qed.

(** [isValidName] accepts exactly the non-empty names all of whose bytes
    lie in 32..127 and differ from the double quote: since [char] is signed,
    every byte above 127 (every byte of a UTF-8 multi-byte character) is
    below 32 for the test and makes the name invalid. *)
Theorem isValidName_spec (name : string) :
  isValidName name = true <->
  name <> EmptyString /\
  Forall (fun c => (32 <= nat_of_ascii c < 128 /\ nat_of_ascii c <> 34)%nat)
         (list_ascii_of_string name).
Proof.
  unfold isValidName. destruct name as [|c s].
  - split; [discriminate | intros [H _]; contradiction H; reflexivity].
  - rewrite no_invalid_char_spec. split; [intros H; split; [discriminate | exact H] | tauto].
Qed.

Lemma string_get_app_length (a b : string) (k : nat) :
  String.get (String.length a + k) (a ++ b) = String.get k b.
Proof. induction a as [|c a IH]; simpl; [reflexivity | exact IH]. Qed.

Lemma substring_0_app_length (a b : string) :
  substring 0 (String.length a) (a ++ b) = a.
Proof. induction a as [|c a IH]; simpl; [now destruct b | now rewrite IH]. Qed.

Lemma string_length_app (a b : string) :
  String.length (a ++ b) = (String.length a + String.length b)%nat.
Proof. induction a as [|c a IH]; simpl; [reflexivity | now rewrite IH]. Qed.

(** [extractNameFromOutput] undoes [formatNameForOutput]: a name that could
    be formatted is recovered from its output form. *)
Theorem extract_format_roundtrip (name formatted : string) :
  formatNameForOutput name = Ok formatted -> extractNameFromOutput formatted = Ok name.
Proof.
  unfold formatNameForOutput. destruct (isValidName name); [|discriminate].
  intros H. injection H as <-. unfold extractNameFromOutput, quote.
  cbn [String.append]. cbn [String.length].
  rewrite string_length_app. cbn [String.length].
  replace (Nat.ltb (S (String.length name + 1)) 2) with false
    by (symmetry; apply Nat.ltb_ge; lia).
  replace (S (String.length name + 1) - 1)%nat with (S (String.length name + 0))%nat by lia.
  cbn [String.get]. rewrite string_get_app_length. cbn [String.get].
  replace (S (String.length name + 1) - 2)%nat with (String.length name) by lia.
  rewrite Ascii.eqb_refl. cbn [andb substring].
  rewrite substring_0_app_length. reflexivity.
Qed.

Lemma extract_format_roundtrip_witness :
  formatNameForOutput "HTTP requests RPS" =
    Ok (quote ++ "HTTP requests RPS" ++ quote)%string /\
  extractNameFromOutput (quote ++ "HTTP requests RPS" ++ quote)%string =
    Ok "HTTP requests RPS"%string.
Proof.
  assert (H : formatNameForOutput "HTTP requests RPS" =
              Ok (quote ++ "HTTP requests RPS" ++ quote)%string) by reflexivity.
  split; [exact H | exact (extract_format_roundtrip _ _ H)].
Defined.

(** ** [TypedMetricValue::addValue] and
    [TypedMetric::recordValue(std::unique_ptr<MetricValue>)] *)

Lemma addValues_spec {T : Type} `{Numeric T} (v : TypedMetricValue T) (xs : list T) :
  addValues v xs =
  {| value_ := fold_left num_add xs (value_ v); vcount_ := (List.length xs + vcount_ v)%nat |}.
Proof.
  unfold addValues. revert v.
  induction xs as [|x xs IH]; intros v; simpl.
  - destruct v; reflexivity.
  - rewrite IH. simpl. f_equal. lia.
Qed.

Lemma addValues_Z_getValue (xs : list Z) :
  getValue (addValues (mkTypedMetricValue 0) xs)
  = Z.quot (wrap32 (Zsum xs)) (wrap32 (Z.of_nat (List.length xs))).
Proof.
  rewrite addValues_spec. unfold getValue. cbn [value_ vcount_ mkTypedMetricValue].
  cbn [num_neq_zero num_add num_div num_of_count num_zero Numeric_Z Z.eqb negb].
  rewrite Nat.add_0_r, fold_left_add32_0.
  destruct xs as [|x xs]; reflexivity.
Qed.

Lemma addValues_Q_getValue (xs : list Q) :
  (getValue (addValues (mkTypedMetricValue 0%Q) xs) == Qmean xs)%Q.
Proof.
  rewrite addValues_spec. unfold getValue. cbn [value_ vcount_ mkTypedMetricValue].
  cbn [num_neq_zero Numeric_Q]. rewrite Nat.add_0_r.
  destruct xs as [|x xs]; [reflexivity|].
  cbn [Nat.ltb Nat.leb List.length num_div num_of_count Numeric_Q]. unfold Qmean.
  rewrite fold_left_Qplus, Qplus_0_l. reflexivity.
Qed.

(** A [TypedMetricValue] built by [addValue] calls from [T{}] reduces, by
    [getValue], to the sum of the values divided by their number: for
    [int] and [long] that is the 32-bit wrapped sum divided by the 32-bit
    count, truncated toward zero; for [float] and [double] the mean. *)
Theorem addValues_getValue_mean (zs : list Z) (qs : list Q) :
  getValue (addValues (mkTypedMetricValue 0) zs)
  = Z.quot (wrap32 (Zsum zs)) (wrap32 (Z.of_nat (List.length zs))) /\
  (getValue (addValues (mkTypedMetricValue 0%Q) qs) == Qmean qs)%Q.
Proof. split; [apply addValues_Z_getValue | apply addValues_Q_getValue]. Qed.

(** Handing an [int] metric a value that aggregates several [addValue]
    calls records one sample, the truncated mean of those values (in 32-bit
    arithmetic), not their sum. *)
Theorem recordValuePtr_records_truncated_mean (t : TypedMetric Z) (xs : list Z) :
  metric_recordValuePtr (MInt t) (VInt (addValues (mkTypedMetricValue 0) xs)) =
  Ok (MInt {| name_ := name_ t;
              accumulated_value_ :=
                wrap32 (accumulated_value_ t
                        + Z.quot (wrap32 (Zsum xs)) (wrap32 (Z.of_nat (List.length xs))));
              count_ := S (count_ t) |}).
Proof. cbn [metric_recordValuePtr]. rewrite addValues_Z_getValue. reflexivity. Qed.

(** ** [MetricCollector] *)

(** [collectCurrentMetrics] snapshots every metric, in order: one entry per
    metric, with its name, the time of the collection and its accumulated
    value. *)
Theorem collect_snapshot_shape (ts : TimePoint) (ms : list Metric) :
  map entry_name (collect_snapshot ts ms) = map getName ms /\
  Forall (fun e => timestamp e = ts) (collect_snapshot ts ms) /\
  map (fun e => Some (entry_value e)) (collect_snapshot ts ms) = map metric_getAccumulatedValue ms.
Proof.
  induction ms as [|m ms [H1 [H2 H3]]]; [split; [|split]; constructor|].
  destruct m; cbn [collect_snapshot flat_map metric_getAccumulatedValue app map];
    fold (collect_snapshot ts ms); cbn [entry_name timestamp entry_value getName];
    rewrite H1, H3; split; (reflexivity || (split; [constructor; [reflexivity | exact H2] | reflexivity])).
Qed.

Lemma update_first_app_none (name : string) (f : Metric -> Metric) (ms l : list Metric) :
  find_metric name ms = None -> update_first name f (ms ++ l) = ms ++ update_first name f l.
Proof.
  induction ms as [|m ms IH]; simpl; [reflexivity|].
  destruct (String.eqb (getName m) name); [discriminate|]. intros H. now rewrite (IH H).
Qed.

(** A running collector whose lookup does not find the name goes on to
    register it.  If the name is still absent when [registerMetric] takes
    the lock, a metric of the sample's type is appended and records the
    sample; if another thread registered it in the meantime,
    [registerMetric] throws, the sample is dropped and the failure is logged
    to [std::cerr].  Without interference the call is the first case. *)
Theorem recordMetric_autoregisters (name : string) (s : sample) (st0 st1 : MetricCollector) :
  running_ st0 = true -> find_metric name (metrics_ st0) = None ->
  recordMetric name s st0 = recordMetric_resume name s false st0 /\
  match find_metric name (metrics_ st1) with
  | None =>
      exists m1, cast_and_record (newMetric (sample_kind s) name) s = Some m1 /\
        getName m1 = name /\ metric_count m1 = 1%nat /\
        recordMetric_resume name s false st1 = set_metrics (metrics_ st1 ++ [m1]) st1
  | Some _ =>
      recordMetric_resume name s false st1 =
        log_error ("Failed to auto-register metric '" ++ name ++ "': "
                   ++ "Metric already registered: " ++ name)%string st1
  end.
Proof.
  intros Hr Hf. split.
  - unfold recordMetric, recordMetric_resume. rewrite Hr, Hf. reflexivity.
  - unfold recordMetric_resume, registerMetric.
    destruct (find_metric name (metrics_ st1)) as [m|] eqn:F; [reflexivity|].
    unfold record_found. cbn [set_metrics metrics_].
    rewrite update_first_app_none by exact F. cbn [update_first].
    rewrite getName_newMetric, String.eqb_refl.
    destruct s; eexists; repeat split; reflexivity.
Qed.

Lemma recordMetric_autoregisters_witness :
  running_ running_collector = true /\
  find_metric "CPU" (metrics_ running_collector) = None /\
  recordMetric "CPU" (SDouble 1) running_collector =
    recordMetric_resume "CPU" (SDouble 1) false running_collector /\
  match find_metric "CPU" (metrics_ cpu_collector) with
  | None =>
      exists m1, cast_and_record (newMetric (sample_kind (SDouble 1)) "CPU") (SDouble 1) = Some m1 /\
        getName m1 = "CPU"%string /\ metric_count m1 = 1%nat /\
        recordMetric_resume "CPU" (SDouble 1) false cpu_collector =
          set_metrics (metrics_ cpu_collector ++ [m1]) cpu_collector
  | Some _ =>
      recordMetric_resume "CPU" (SDouble 1) false cpu_collector =
        log_error ("Failed to auto-register metric '" ++ "CPU" ++ "': "
                   ++ "Metric already registered: " ++ "CPU")%string cpu_collector
  end.
Proof.
  assert (H1 : running_ running_collector = true) by reflexivity.
  assert (H2 : find_metric "CPU" (metrics_ running_collector) = None) by reflexivity.
  split; [exact H1|]. split; [exact H2|].
  exact (recordMetric_autoregisters "CPU" (SDouble 1) running_collector cpu_collector H1 H2).
Defined.

Lemma find_metric_update_other (n name : string) (f : Metric -> Metric) (ms : list Metric) :
  (forall m, getName (f m) = getName m) -> n <> name ->
  find_metric n (update_first name f ms) = find_metric n ms.
Proof.
  intros Hf Hn. induction ms as [|m ms IH]; simpl; [reflexivity|].
  destruct (String.eqb (getName m) name) eqn:E.
  - apply String.eqb_eq in E. unfold find_metric. simpl. rewrite Hf, E.
    apply String.eqb_neq in Hn. rewrite (String.eqb_sym name n), Hn. reflexivity.
  - unfold find_metric in *. simpl. destruct (String.eqb (getName m) n); [reflexivity | exact IH].
Qed.

Lemma find_metric_app_other (n : string) (ms : list Metric) (m : Metric) :
  getName m <> n -> find_metric n (ms ++ [m]) = find_metric n ms.
Proof.
  intros Hm. induction ms as [|m0 ms IH]; unfold find_metric in *; simpl.
  - apply String.eqb_neq in Hm. now rewrite Hm.
  - destruct (String.eqb (getName m0) n); [reflexivity | exact IH].
Qed.

Lemma record_found_frame (n name : string) (s : sample) (st : MetricCollector) :
  n <> name ->
  cerr (record_found name s st) = cerr st /\
  writer_ (record_found name s st) = writer_ st /\
  running_ (record_found name s st) = running_ st /\
  find_metric n (metrics_ (record_found name s st)) = find_metric n (metrics_ st).
Proof.
  intros Hn.
  assert (Hf : forall m, getName (match cast_and_record m s with Some m' => m' | None => m end)
                         = getName m) by (intros m; apply cast_and_record_name).
  unfold record_found. cbn [set_metrics cerr writer_ running_ metrics_].
  repeat split. exact (find_metric_update_other n name _ _ Hf Hn).
Qed.

(** Once its lookup is done, [recordMetric] writes to [std::cerr] only when
    it had to register the name and found it registered by another thread,
    and then exactly the one line; it never touches the writer or the
    running flag, and leaves the metric of every other name as it was. *)
Theorem recordMetric_frame (n name : string) (s : sample) (found : bool) (st : MetricCollector) :
  n <> name ->
  cerr (recordMetric_resume name s found st) =
    cerr st ++ (if found then []
                else match find_metric name (metrics_ st) with
                     | Some _ => [("Failed to auto-register metric '" ++ name ++ "': "
                                   ++ "Metric already registered: " ++ name)%string]
                     | None => []
                     end) /\
  writer_ (recordMetric_resume name s found st) = writer_ st /\
  running_ (recordMetric_resume name s found st) = running_ st /\
  find_metric n (metrics_ (recordMetric_resume name s found st)) = find_metric n (metrics_ st).
Proof.
  intros Hn. unfold recordMetric_resume. destruct found.
  - rewrite app_nil_r. exact (record_found_frame n name s st Hn).
  - unfold registerMetric. destruct (find_metric name (metrics_ st)) as [m|] eqn:F.
    + cbn. repeat split.
    + destruct (record_found_frame n name s
                  (set_metrics (metrics_ st ++ [newMetric (sample_kind s) name]) st) Hn)
        as (A & B & C & D).
      rewrite A, B, C, D, app_nil_r. cbn [set_metrics cerr writer_ running_ metrics_].
      repeat split. apply find_metric_app_other. rewrite getName_newMetric. congruence.
Qed.

Lemma recordMetric_frame_witness :
  "HTTP"%string <> "CPU"%string /\
  cerr (recordMetric_resume "CPU" (SDouble 1) false cpu_collector) =
    cerr cpu_collector ++
      (if false then []
       else match find_metric "CPU" (metrics_ cpu_collector) with
            | Some _ => [("Failed to auto-register metric '" ++ "CPU" ++ "': "
                          ++ "Metric already registered: " ++ "CPU")%string]
            | None => []
            end) /\
  writer_ (recordMetric_resume "CPU" (SDouble 1) false cpu_collector) = writer_ cpu_collector /\
  running_ (recordMetric_resume "CPU" (SDouble 1) false cpu_collector) = running_ cpu_collector /\
  find_metric "HTTP" (metrics_ (recordMetric_resume "CPU" (SDouble 1) false cpu_collector)) =
    find_metric "HTTP" (metrics_ cpu_collector).
Proof.
  assert (H : "HTTP"%string <> "CPU"%string) by discriminate.
  split; [exact H | exact (recordMetric_frame "HTTP" "CPU" (SDouble 1) false cpu_collector H)].
Defined.

Lemma collectCurrentMetrics_running (ts : TimePoint) (st : MetricCollector) :
  running_ (collectCurrentMetrics ts st) = running_ st.
Proof.
  unfold collectCurrentMetrics, collect_commit.
  destruct (collect_snapshot ts (metrics_ st)) as [|e es]; [reflexivity|].
  destruct (writeMetrics (e :: es) (writer_ st)) as [[w errs]|ex]; reflexivity.
Qed.

(** [start] and [stop] are idempotent: a second call does nothing, in
    particular a second [stop] writes nothing. *)
Theorem start_stop_idempotent (ts ts' : TimePoint) (st : MetricCollector) :
  start (start st) = start st /\ stop ts' (stop ts st) = stop ts st.
Proof.
  split.
  - unfold start. destruct (running_ st) eqn:E; [now rewrite E | reflexivity].
  - destruct (running_ st) eqn:E.
    + assert (Hs : stop ts st = collectCurrentMetrics ts (set_running false st))
        by (unfold stop; now rewrite E).
      rewrite Hs. unfold stop at 1. rewrite collectCurrentMetrics_running. reflexivity.
    + assert (Hs : stop ts st = st) by (unfold stop; now rewrite E).
      rewrite Hs. unfold stop. now rewrite E.
Qed.

(** [stop] on a running collector with an open writer and at least one
    metric performs a final collection: every metric is written (a badly
    named one skipped and logged), the file is flushed, every accumulator
    is reset and the collector is left stopped. *)
Theorem stop_final_flush (ts : TimePoint) (st : MetricCollector) :
  running_ st = true -> is_open (writer_ st) = true -> metrics_ st <> [] ->
  stop ts st =
  {| metrics_ := map metric_reset (metrics_ st); running_ := false;
     writer_ := {| output_file_ := output_file_ (writer_ st); is_open := true;
                   buffer := EmptyString;
                   file_contents := (file_contents (writer_ st) ++ buffer (writer_ st)
                                     ++ written_lines (collect_snapshot ts (metrics_ st)))%string |};
     cerr := cerr st ++ format_errors (collect_snapshot ts (metrics_ st)) |}.
Proof.
  intros Hr Ho Hne. unfold stop. rewrite Hr. cbn [negb].
  unfold collectCurrentMetrics, collect_commit. cbn [set_running metrics_ writer_ cerr running_].
  destruct (collect_snapshot ts (metrics_ st)) as [|e es] eqn:S.
  { apply collect_snapshot_nil in S. contradiction. }
  unfold writeMetrics. rewrite Ho. cbn [negb].
  destruct (write_entries_spec (e :: es) (writer_ st)) as [H1 H2].
  destruct (write_entries (e :: es) (writer_ st)) as [w1 errs]. cbn [fst snd] in *.
  rewrite H1, H2, Ho. reflexivity.
Qed.

Lemma stop_final_flush_witness :
  running_ http_collector = true /\ is_open (writer_ http_collector) = true /\
  metrics_ http_collector <> [] /\
  stop sample_time http_collector =
  {| metrics_ := map metric_reset (metrics_ http_collector); running_ := false;
     writer_ := {| output_file_ := output_file_ (writer_ http_collector); is_open := true;
                   buffer := EmptyString;
                   file_contents := (file_contents (writer_ http_collector)
                                     ++ buffer (writer_ http_collector)
                                     ++ written_lines (collect_snapshot sample_time
                                                         (metrics_ http_collector)))%string |};
     cerr := cerr http_collector
             ++ format_errors (collect_snapshot sample_time (metrics_ http_collector)) |}.
Proof.
  assert (H1 : running_ http_collector = true) by reflexivity.
  assert (H2 : is_open (writer_ http_collector) = true) by reflexivity.
  assert (H3 : metrics_ http_collector <> []) by discriminate.
  split; [exact H1|]. split; [exact H2|]. split; [exact H3|].
  exact (stop_final_flush sample_time _ H1 H2 H3).
Defined.

(** ** [CPUMetric] *)

(** Whatever the requested and detected core counts, a [CPUMetric] has at
    least one core and accepts utilizations up to its core count. *)
Theorem newCPUMetric_spec (name : string) (cores hardware_concurrency : Z) :
  (1 <= cpu_cores_ (newCPUMetric name cores hardware_concurrency))%Z /\
  max_utilization_ (newCPUMetric name cores hardware_concurrency) =
    inject_Z (cpu_cores_ (newCPUMetric name cores hardware_concurrency)) /\
  cpu_metric (newCPUMetric name cores hardware_concurrency) = newTypedMetric name.
Proof.
  unfold newCPUMetric. cbn [cpu_cores_ max_utilization_ cpu_metric].
  split; [|split; reflexivity].
  destruct (Z.leb_spec cores 0); [|lia].
  destruct (Z.leb_spec (int_of_unsigned hardware_concurrency) 0); lia.
Qed.

Lemma cpu_recordValues_inv (m : CPUMetric) (xs : list Q) :
  cpu_inv m -> cpu_inv (cpu_recordValues m xs).
Proof.
  unfold cpu_recordValues. revert m.
  induction xs as [|x xs IH]; intros m Hm; simpl; [exact Hm|].
  apply IH. unfold cpu_recordValue, isValidUtilization.
  destruct (Qle_bool 0 x && Qle_bool x (max_utilization_ m)) eqn:V; cbn [negb]; [|exact Hm].
  apply andb_true_iff in V as [V1 V2]. apply Qle_bool_iff in V1, V2.
  destruct Hm as [H1 [H2 [H3 H4]]].
  unfold cpu_inv. cbn [cpu_cores_ max_utilization_ cpu_metric recordValue
                        accumulated_value_ count_ num_add Numeric_Q].
  split; [exact H1|]. split; [exact H2|]. split.
  - apply (Qle_trans _ (0 + 0)); [discriminate|]. apply Qplus_le_compat; assumption.
  - rewrite Nat2Z.inj_succ, <- Z.add_1_r, inject_Z_plus.
    setoid_replace ((inject_Z (Z.of_nat (count_ (cpu_metric m))) + inject_Z 1) * max_utilization_ m)%Q
      with (inject_Z (Z.of_nat (count_ (cpu_metric m))) * max_utilization_ m + max_utilization_ m)%Q
      by ring.
    apply Qplus_le_compat; assumption.
Qed.

(** Whatever values a caller hands to a fresh [CPUMetric] (a rejected one
    throws and is ignored), [getUtilizationPercentage] stays within
    0..100. *)
Theorem cpu_percentage_bounded (name : string) (cores hardware_concurrency : Z) (xs : list Q) :
  (0 <= getUtilizationPercentage
          (cpu_recordValues (newCPUMetric name cores hardware_concurrency) xs) <= 100)%Q.
Proof.
  assert (Hi : cpu_inv (cpu_recordValues (newCPUMetric name cores hardware_concurrency) xs)).
  { apply cpu_recordValues_inv.
    destruct (newCPUMetric_spec name cores hardware_concurrency) as [H1 [H2 H3]].
    unfold cpu_inv. rewrite H3. cbn [accumulated_value_ count_ newTypedMetric num_zero Numeric_Q].
    split; [exact H1|]. split; [exact H2|]. split; [apply Qle_refl|].
    rewrite H2. cbn [Z.of_nat]. rewrite Qmult_0_l. apply Qle_refl. }
  destruct (cpu_recordValues (newCPUMetric name cores hardware_concurrency) xs) as [t c M].
  destruct Hi as [H1 [H2 [H3 H4]]]. cbn [cpu_cores_ max_utilization_ cpu_metric] in *.
  subst M. unfold getUtilizationPercentage. cbn [cpu_cores_ cpu_metric].
  replace (c =? 0)%Z with false by (symmetry; apply Z.eqb_neq; lia).
  assert (Hc : (0 < inject_Z c)%Q) by (unfold Qlt; cbn; lia).
  assert (Hv : (0 <= getValue (getAccumulatedValue t) <= inject_Z c)%Q).
  { unfold getAccumulatedValue. destruct (Nat.eqb (count_ t) 0) eqn:E.
    - rewrite getValue_mk_Q. split; [apply Qle_refl | apply Qlt_le_weak; exact Hc].
    - cbn [is_floating_point Numeric_Q num_div num_of_count]. rewrite getValue_mk_Q.
      assert (Hn : (0 < inject_Z (Z.of_nat (count_ t)))%Q).
      { apply Nat.eqb_neq in E. unfold Qlt; cbn; lia. }
      split.
      + apply Qle_shift_div_l; [exact Hn|]. rewrite Qmult_0_l. exact H3.
      + apply Qle_shift_div_r; [exact Hn|]. rewrite Qmult_comm. exact H4. }
  destruct Hv as [Hv1 Hv2]. split.
  - apply (Qle_trans _ (0 * 100)); [discriminate|]. apply Qmult_le_compat_r; [|discriminate].
    apply Qle_shift_div_l; [exact Hc|]. rewrite Qmult_0_l. exact Hv1.
  - apply (Qle_trans _ (1 * 100)); [|discriminate]. apply Qmult_le_compat_r; [|discriminate].
    apply Qle_shift_div_r; [exact Hc|]. rewrite Qmult_1_l. exact Hv2.
Qed.

(** ** [MemoryMetric] *)

Lemma mem_step (m : MemoryMetric) (x : Q) :
  match mem_recordValue m x with Ok m' => m' | Throw _ => m end =
  if Qlt_le_dec x 0 then m
  else {| mem_metric := recordValue (mem_metric m) x;
          peak_usage_ := if track_peak_ m && (if Qlt_le_dec (peak_usage_ m) x then true else false)
                         then x else peak_usage_ m;
          track_peak_ := track_peak_ m |}.
Proof. unfold mem_recordValue. destruct (Qlt_le_dec x 0); reflexivity. Qed.

Lemma mem_recordValues_metric (m : MemoryMetric) (xs : list Q) :
  mem_metric (mem_recordValues m xs) = recordValues (mem_metric m) (filter (fun x => Qle_bool 0 x) xs).
Proof.
  unfold mem_recordValues. revert m.
  induction xs as [|x xs IH]; intros m; simpl; [reflexivity|].
  rewrite mem_step. destruct (Qlt_le_dec x 0) as [Hx|Hx].
  - replace (Qle_bool 0 x) with false; [exact (IH m)|].
    symmetry. apply Bool.not_true_iff_false. intros H. apply Qle_bool_iff in H.
    apply (Qlt_not_le _ _ Hx H).
  - replace (Qle_bool 0 x) with true by (symmetry; apply Qle_bool_iff; exact Hx).
    rewrite IH. reflexivity.
Qed.

(** [getCurrentUsage] of a fresh [MemoryMetric] is the mean of the accepted
    (non-negative) samples, not the last one recorded. *)
Theorem memory_current_usage_is_mean (name : string) (track : bool) (xs : list Q) :
  (getCurrentUsage (mem_recordValues (newMemoryMetric name track) xs) ==
   Qmean (filter (fun x => Qle_bool 0 x) xs))%Q.
Proof.
  unfold getCurrentUsage. rewrite mem_recordValues_metric.
  exact (fractional_value_is_mean (newTypedMetric name) _).
Qed.


(** ** [HTTPRequestMetric] and [NetworkMetric] *)

Lemma http_record_step (m : HTTPRequestMetric) (v : Z) :
  match http_recordValue m v with Ok m' => m' | Throw _ => m end =
  if v <? 0 then m
  else {| http_metric := recordValue (http_metric m) v;
          total_requests_ := wrap32 (total_requests_ m + v);
          start_time_ := start_time_ m; last_reset_ := last_reset_ m |}.
Proof. unfold http_recordValue. destruct (v <? 0); reflexivity. Qed.

Lemma net_record_step (m : NetworkMetric) (v : Z) :
  match net_recordValue m v with Ok m' => m' | Throw _ => m end =
  if v <? 0 then m
  else {| net_metric := recordValue (net_metric m) v;
          total_bytes_ := wrap32 (total_bytes_ m + v);
          direction_ := direction_ m |}.
Proof. unfold net_recordValue. destruct (v <? 0); reflexivity. Qed.

Lemma Zsum_app (a b : list Z) : Zsum (a ++ b) = Zsum a + Zsum b.
Proof. induction a as [|x a IH]; simpl; [reflexivity|]. unfold Zsum in *. simpl. rewrite IH. lia. Qed.

Lemma accepted_record (v : Z) (ops : list counter_op) :
  accepted (OpRecord v :: ops) = (if v <? 0 then [] else [v]) ++ accepted ops.
Proof. reflexivity. Qed.

Lemma int32_ok_wrap32 (z : Z) : int32_ok (wrap32 z) = true.
Proof.
  unfold int32_ok. pose proof (wrap32_range z). apply andb_true_iff.
  rewrite Z.leb_le, Z.ltb_lt. lia.
Qed.

(** [HTTPRequestMetric::reset] clears the current period only: whatever the
    calls, [total_requests_] (a 32-bit [long]) grows by the accepted
    (non-negative) request counts, with two's-complement wrap-around, and the
    start time never changes. *)
Theorem http_total_requests (ops : list counter_op) (m : HTTPRequestMetric) :
  int32_ok (total_requests_ m) = true ->
  total_requests_ (http_run ops m) = wrap32 (total_requests_ m + Zsum (accepted ops)) /\
  start_time_ (http_run ops m) = start_time_ m.
Proof.
  unfold http_run. revert m.
  induction ops as [|[v|now] ops IH]; intros m Hm; cbn [fold_left].
  - cbn. split; [|reflexivity]. rewrite Z.add_0_r. symmetry.
    apply wrap32_small, int32_ok_spec, Hm.
  - rewrite http_record_step. fold (http_run ops).
    rewrite accepted_record, Zsum_app.
    destruct (v <? 0); fold (http_run ops).
    + rewrite (proj1 (IH _ Hm)), (proj2 (IH _ Hm)). cbn. split; reflexivity.
    + match goal with |- context [fold_left _ ops ?m'] => set (m1 := m') end.
      assert (H1 : int32_ok (total_requests_ m1) = true) by apply int32_ok_wrap32.
      rewrite (proj1 (IH _ H1)), (proj2 (IH _ H1)). subst m1. cbn.
      split; [|reflexivity]. rewrite wrap32_add_l. f_equal. unfold Zsum. cbn. lia.
  - fold (http_run ops). cbn [http_reset].
    match goal with |- context [fold_left _ ops ?m'] => set (m1 := m') end.
    assert (H1 : int32_ok (total_requests_ m1) = true) by exact Hm.
    rewrite (proj1 (IH _ H1)), (proj2 (IH _ H1)). subst m1. cbn. split; reflexivity.
Qed.

Lemma http_total_requests_witness :
  int32_ok (total_requests_ (newHTTPRequestMetric "HTTP" sample_time)) = true /\
  total_requests_ (http_run [OpRecord 2147483647; OpReset sample_time; OpRecord 1]
                     (newHTTPRequestMetric "HTTP" sample_time)) =
    wrap32 (total_requests_ (newHTTPRequestMetric "HTTP" sample_time)
            + Zsum (accepted [OpRecord 2147483647; OpReset sample_time; OpRecord 1])) /\
  start_time_ (http_run [OpRecord 2147483647; OpReset sample_time; OpRecord 1]
                 (newHTTPRequestMetric "HTTP" sample_time)) =
    start_time_ (newHTTPRequestMetric "HTTP" sample_time).
Proof.
  assert (H : int32_ok (total_requests_ (newHTTPRequestMetric "HTTP" sample_time)) = true)
    by reflexivity.
  split; [exact H | exact (http_total_requests _ _ H)].
Defined.

Lemma http_run_no_reset (ops : list counter_op) (m : HTTPRequestMetric) :
  forallb (fun op => negb (is_reset op)) ops = true ->
  http_metric (http_run ops m) = recordValues (http_metric m) (accepted ops) /\
  last_reset_ (http_run ops m) = last_reset_ m.
Proof.
  unfold http_run. revert m.
  induction ops as [|[v|now] ops IH]; intros m Hn; cbn [fold_left].
  - split; reflexivity.
  - cbn [forallb is_reset negb andb] in Hn.
    rewrite http_record_step. fold (http_run ops). rewrite accepted_record.
    destruct (v <? 0); fold (http_run ops); rewrite (proj1 (IH _ Hn)), (proj2 (IH _ Hn));
      split; reflexivity.
  - discriminate.
Qed.

(** After calls ending with a [reset] at time [now] followed by records
    only, the accumulator holds exactly the accepted records made since
    that reset (their sum in 32-bit arithmetic), and [last_reset_] is
    [now]. *)
Theorem http_window_since_reset (ops1 ops2 : list counter_op) (now : TimePoint)
    (m : HTTPRequestMetric) :
  forallb (fun op => negb (is_reset op)) ops2 = true ->
  last_reset_ (http_run (ops1 ++ OpReset now :: ops2) m) = now /\
  count_ (http_metric (http_run (ops1 ++ OpReset now :: ops2) m)) = List.length (accepted ops2) /\
  getValue (getAccumulatedValue (http_metric (http_run (ops1 ++ OpReset now :: ops2) m))) =
    wrap32 (Zsum (accepted ops2)).
Proof.
  intros Hn.
  assert (E : http_run (ops1 ++ OpReset now :: ops2) m =
              http_run ops2 (http_reset now (http_run ops1 m)))
    by (unfold http_run; rewrite fold_left_app; reflexivity).
  rewrite E.
  destruct (http_run_no_reset ops2 (http_reset now (http_run ops1 m)) Hn) as [H1 H2].
  rewrite H1, H2. split; [reflexivity|]. split.
  - rewrite recordValues_spec. cbn. lia.
  - apply integral_value_is_sum.
Qed.

Lemma http_window_since_reset_witness :
  forallb (fun op => negb (is_reset op)) [OpRecord 3; OpRecord (-1); OpRecord 4] = true /\
  last_reset_ (http_run ([OpRecord 5] ++ OpReset "2025-06-01 15:00:02.000"%string
                          :: [OpRecord 3; OpRecord (-1); OpRecord 4])
                 (newHTTPRequestMetric "HTTP" sample_time)) = "2025-06-01 15:00:02.000"%string /\
  count_ (http_metric (http_run ([OpRecord 5] ++ OpReset "2025-06-01 15:00:02.000"%string
                          :: [OpRecord 3; OpRecord (-1); OpRecord 4])
                 (newHTTPRequestMetric "HTTP" sample_time))) =
    List.length (accepted [OpRecord 3; OpRecord (-1); OpRecord 4]) /\
  getValue (getAccumulatedValue (http_metric (http_run ([OpRecord 5] ++ OpReset "2025-06-01 15:00:02.000"%string
                          :: [OpRecord 3; OpRecord (-1); OpRecord 4])
                 (newHTTPRequestMetric "HTTP" sample_time)))) =
    wrap32 (Zsum (accepted [OpRecord 3; OpRecord (-1); OpRecord 4])).
Proof.
  assert (H : forallb (fun op => negb (is_reset op)) [OpRecord 3; OpRecord (-1); OpRecord 4] = true)
    by reflexivity.
  split; [exact H | exact (http_window_since_reset _ _ _ _ H)].
Defined.

Lemma net_run_total (ops : list counter_op) (m : NetworkMetric) :
  int32_ok (total_bytes_ m) = true ->
  total_bytes_ (net_run ops m) = wrap32 (total_bytes_ m + Zsum (accepted ops)).
Proof.
  unfold net_run. revert m.
  induction ops as [|[v|now] ops IH]; intros m Hm; cbn [fold_left].
  - cbn. rewrite Z.add_0_r. symmetry. apply wrap32_small, int32_ok_spec, Hm.
  - rewrite net_record_step. fold (net_run ops).
    rewrite accepted_record, Zsum_app.
    destruct (v <? 0); fold (net_run ops).
    + rewrite (IH _ Hm). reflexivity.
    + match goal with |- context [fold_left _ ops ?m'] => set (m1 := m') end.
      assert (H1 : int32_ok (total_bytes_ m1) = true) by apply int32_ok_wrap32.
      rewrite (IH _ H1). subst m1. cbn.
      rewrite wrap32_add_l. f_equal. unfold Zsum. cbn. lia.
  - fold (net_run ops). cbn [net_reset].
    match goal with |- context [fold_left _ ops ?m'] => set (m1 := m') end.
    assert (H1 : int32_ok (total_bytes_ m1) = true) by exact Hm.
    rewrite (IH _ H1). reflexivity.
Qed.

Lemma net_run_no_reset (ops : list counter_op) (m : NetworkMetric) :
  forallb (fun op => negb (is_reset op)) ops = true ->
  net_metric (net_run ops m) = recordValues (net_metric m) (accepted ops).
Proof.
  unfold net_run. revert m.
  induction ops as [|[v|now] ops IH]; intros m Hn; cbn [fold_left].
  - reflexivity.
  - cbn [forallb is_reset negb andb] in Hn.
    rewrite net_record_step. fold (net_run ops). rewrite accepted_record.
    destruct (v <? 0); fold (net_run ops); rewrite (IH _ Hn); reflexivity.
  - discriminate.
Qed.

(** [NetworkMetric::reset] keeps the lifetime total: after calls ending with
    a reset followed by records only, [total_bytes_] (a 32-bit [long])
    counts every accepted record since construction, with two's-complement
    wrap-around, while the accumulator holds only those made since the
    reset. *)
Theorem network_reset_keeps_total (ops1 ops2 : list counter_op) (now : TimePoint)
    (m : NetworkMetric) :
  int32_ok (total_bytes_ m) = true ->
  forallb (fun op => negb (is_reset op)) ops2 = true ->
  total_bytes_ (net_run (ops1 ++ OpReset now :: ops2) m) =
    wrap32 (total_bytes_ m + Zsum (accepted ops1) + Zsum (accepted ops2)) /\
  getValue (getAccumulatedValue (net_metric (net_run (ops1 ++ OpReset now :: ops2) m))) =
    wrap32 (Zsum (accepted ops2)).
Proof.
  intros Hm Hn. split.
  - rewrite (net_run_total _ _ Hm). unfold accepted at 1. rewrite flat_map_app. fold (accepted ops1).
    cbn [flat_map app]. fold (accepted ops2). rewrite Zsum_app. f_equal. lia.
  - assert (E : net_run (ops1 ++ OpReset now :: ops2) m = net_run ops2 (net_reset (net_run ops1 m)))
      by (unfold net_run; rewrite fold_left_app; reflexivity).
    rewrite E.
    rewrite (net_run_no_reset ops2 _ Hn). apply integral_value_is_sum.
Qed.

Lemma network_reset_keeps_total_witness :
  int32_ok (total_bytes_ {| net_metric := newTypedMetric "Network"; total_bytes_ := 0;
                            direction_ := "in" |}) = true /\
  forallb (fun op => negb (is_reset op)) [OpRecord 100; OpRecord 28] = true /\
  total_bytes_ (net_run ([OpRecord 1024; OpRecord (-3)] ++ OpReset sample_time :: [OpRecord 100; OpRecord 28])
                  {| net_metric := newTypedMetric "Network"; total_bytes_ := 0; direction_ := "in" |}) =
    wrap32 (0 + Zsum (accepted [OpRecord 1024; OpRecord (-3)]) + Zsum (accepted [OpRecord 100; OpRecord 28])) /\
  getValue (getAccumulatedValue (net_metric
     (net_run ([OpRecord 1024; OpRecord (-3)] ++ OpReset sample_time :: [OpRecord 100; OpRecord 28])
        {| net_metric := newTypedMetric "Network"; total_bytes_ := 0; direction_ := "in" |}))) =
    wrap32 (Zsum (accepted [OpRecord 100; OpRecord 28])).
Proof.
  assert (H0 : int32_ok (total_bytes_ {| net_metric := newTypedMetric "Network"; total_bytes_ := 0;
                                         direction_ := "in" |}) = true) by reflexivity.
  assert (H : forallb (fun op => negb (is_reset op)) [OpRecord 100; OpRecord 28] = true)
    by reflexivity.
  split; [exact H0|]. split; [exact H | exact (network_reset_keeps_total _ _ _ _ H0 H)].
Defined.

(** ** [MetricSystemManager] *)

Lemma mgr_register_record (file name : string) (s : sample) (m : MetricSystemManager) :
  newManager file = Ok m ->
  fst (mgr_registerMetric (sample_kind s) name m) = Ok tt /\
  find_metric name (metrics_ (collector_
    (mgr_recordMetric name s (mgr_start (snd (mgr_registerMetric (sample_kind s) name m)))))) =
  cast_and_record (newMetric (sample_kind s) name) s.
Proof.
  intros H. destruct file as [|c f]; [discriminate|]. injection H as <-.
  unfold mgr_registerMetric, registerMetric. cbn [collector_ newCollector metrics_ find_metric find].
  split; [reflexivity|].
  destruct s; cbn; rewrite ?String.eqb_refl; cbn; rewrite ?String.eqb_refl; cbn; rewrite ?String.eqb_refl; reflexivity.
Qed.

(** Each registrar of the manager creates the type its recorder records:
    on a fresh manager, [registerX(name)], [start()] and [recordX(v, name)]
    leave under [name] a metric holding exactly [v]. *)
Theorem manager_register_record_pairing (file name : string) (m : MetricSystemManager)
    (cpu mem : Q) (requests bytes : Z) :
  newManager file = Ok m ->
  fst (registerCPUMetric name m) = Ok tt /\
  find_metric name (metrics_ (collector_ (recordCPU cpu name (mgr_start (snd (registerCPUMetric name m)))))) =
    Some (MDouble (recordValue (newTypedMetric name) cpu)) /\
  fst (registerHTTPMetric name m) = Ok tt /\
  find_metric name (metrics_ (collector_
    (recordHTTPRequests requests name (mgr_start (snd (registerHTTPMetric name m)))))) =
    Some (MInt (recordValue (newTypedMetric name) requests)) /\
  fst (registerMemoryMetric name m) = Ok tt /\
  find_metric name (metrics_ (collector_
    (recordMemoryUsage mem name (mgr_start (snd (registerMemoryMetric name m)))))) =
    Some (MDouble (recordValue (newTypedMetric name) mem)) /\
  fst (registerNetworkMetric name m) = Ok tt /\
  find_metric name (metrics_ (collector_
    (recordNetworkBytes bytes name (mgr_start (snd (registerNetworkMetric name m)))))) =
    Some (MLong (recordValue (newTypedMetric name) bytes)).
Proof.
  intros H.
  destruct (mgr_register_record file name (SDouble cpu) m H) as [A1 B1].
  destruct (mgr_register_record file name (SInt requests) m H) as [A2 B2].
  destruct (mgr_register_record file name (SDouble mem) m H) as [A3 B3].
  destruct (mgr_register_record file name (SLong bytes) m H) as [A4 B4].
  exact (conj A1 (conj B1 (conj A2 (conj B2 (conj A3 (conj B3 (conj A4 B4))))))).
Qed.

Lemma manager_register_record_pairing_witness :
  exists m, newManager "metrics_output.txt" = Ok m /\
  fst (registerCPUMetric "CPU" m) = Ok tt /\
  find_metric "CPU" (metrics_ (collector_ (recordCPU (Qmake 97 100) "CPU" (mgr_start (snd (registerCPUMetric "CPU" m)))))) =
    Some (MDouble (recordValue (newTypedMetric "CPU") (Qmake 97 100))) /\
  fst (registerHTTPMetric "CPU" m) = Ok tt /\
  find_metric "CPU" (metrics_ (collector_
    (recordHTTPRequests 42 "CPU" (mgr_start (snd (registerHTTPMetric "CPU" m)))))) =
    Some (MInt (recordValue (newTypedMetric "CPU") 42)) /\
  fst (registerMemoryMetric "CPU" m) = Ok tt /\
  find_metric "CPU" (metrics_ (collector_
    (recordMemoryUsage 512%Q "CPU" (mgr_start (snd (registerMemoryMetric "CPU" m)))))) =
    Some (MDouble (recordValue (newTypedMetric "CPU") 512%Q)) /\
  fst (registerNetworkMetric "CPU" m) = Ok tt /\
  find_metric "CPU" (metrics_ (collector_
    (recordNetworkBytes 1024 "CPU" (mgr_start (snd (registerNetworkMetric "CPU" m)))))) =
    Some (MLong (recordValue (newTypedMetric "CPU") 1024)).
Proof.
  destruct (newManager "metrics_output.txt") as [m|e] eqn:E; [|discriminate].
  exists m. split; [reflexivity|].
  exact (manager_register_record_pairing "metrics_output.txt" "CPU" m (Qmake 97 100) 512%Q 42 1024 E).
Defined.

Lemma recordMetric_running (name : string) (s : sample) (st : MetricCollector) :
  running_ (recordMetric name s st) = running_ st.
Proof.
  unfold recordMetric. destruct (running_ st) eqn:Hr; cbn [negb]; [|exact Hr].
  destruct (find_metric name (metrics_ st)); [exact Hr|].
  unfold registerMetric. destruct (find_metric name (metrics_ st)); exact Hr.
Qed.

Lemma mgr_step_flags (m : MetricSystemManager) (op : mgr_op) :
  is_running_ m = running_ (collector_ m) ->
  is_running_ (mgr_step m op) = running_ (collector_ (mgr_step m op)).
Proof.
  intros H. destruct op as [|ts|k name|name s|ts]; cbn [mgr_step].
  - unfold mgr_start. destruct (is_running_ m) eqn:E; [congruence|].
    cbn [is_running_ collector_]. unfold start. rewrite <- H. reflexivity.
  - unfold mgr_stop. destruct (is_running_ m) eqn:E; cbn [negb]; [|congruence].
    cbn [is_running_ collector_]. unfold stop. rewrite <- H. cbn [negb].
    rewrite collectCurrentMetrics_running. reflexivity.
  - unfold mgr_registerMetric, registerMetric.
    destruct (find_metric name (metrics_ (collector_ m))); cbn; congruence.
  - unfold mgr_recordMetric. destruct (is_running_ m) eqn:E; cbn [negb]; [|congruence].
    cbn [with_collector is_running_ collector_]. rewrite recordMetric_running. congruence.
  - unfold mgr_flush. destruct (is_running_ m) eqn:E; [|congruence].
    cbn [with_collector is_running_ collector_]. unfold flush. rewrite <- H. cbn [negb].
    rewrite collectCurrentMetrics_running. congruence.
Qed.

(** The manager's [is_running_] flag and its collector's [running_] flag
    agree after any sequence of calls on a freshly built manager, so the
    manager never forwards a record that the collector would drop as
    stopped, nor drops one that the collector would accept. *)
Theorem manager_flags_agree (file : string) (ops : list mgr_op) (m : MetricSystemManager) :
  newManager file = Ok m ->
  is_running_ (mgr_run ops m) = running_ (collector_ (mgr_run ops m)).
Proof.
  intros H. assert (H0 : is_running_ m = running_ (collector_ m)).
  { destruct file; [discriminate|]. injection H as <-. reflexivity. }
  unfold mgr_run. clear H. revert m H0.
  induction ops as [|op ops IH]; intros m H0; [exact H0|]. cbn [fold_left].
  apply IH. apply mgr_step_flags. exact H0.
Qed.

Lemma manager_flags_agree_witness :
  exists m, newManager "metrics_output.txt" = Ok m /\
  is_running_ (mgr_run [MStart; MRegister KDouble "CPU"; MRecord "CPU" (SDouble 1);
                        MFlush sample_time; MStop sample_time] m) =
  running_ (collector_ (mgr_run [MStart; MRegister KDouble "CPU"; MRecord "CPU" (SDouble 1);
                                 MFlush sample_time; MStop sample_time] m)).
Proof.
  destruct (newManager "metrics_output.txt") as [m|e] eqn:E; [|discriminate].
  exists m. split; [reflexivity|]. exact (manager_flags_agree _ _ m E).
Defined.

(** ** [ValueFormatter] *)

Lemma pad_digits_2 (f : Z) :
  0 <= f < 100 ->
  pad_digits 2 f = ((if Z.ltb f 10 then "0" else EmptyString) ++ nat_digits f)%string.
Proof.
  intros Hf.
  assert (Hall : forallb (fun k => String.eqb (pad_digits 2 (Z.of_nat k))
                   ((if Z.ltb (Z.of_nat k) 10 then "0" else EmptyString) ++ nat_digits (Z.of_nat k))%string)
                   (seq 0 100) = true) by (vm_compute; reflexivity).
  rewrite forallb_forall in Hall.
  specialize (Hall (Z.to_nat f)). rewrite Z2Nat.id in Hall by lia.
  apply String.eqb_eq, Hall, in_seq. lia.
Qed.

(** [ValueFormatter::formatDouble] at precision 2 renders a [double] as
    [TypedMetricValue::toString] does. *)
Lemma formatDouble_2 (q : Q) : formatDouble q 2 = Q_to_fixed2 q.
Proof.
  unfold formatDouble, Q_to_fixed, Q_to_fixed2. change (10 ^ Z.of_nat 2) with 100.
  fold (round_cents (Qabs q)).
  rewrite pad_digits_2 by (apply Z.mod_pos_bound; lia). reflexivity.
Qed.

(** The writer renders a non-empty value exactly as
    [ValueFormatter::formatValue] renders its [getValue]; an empty value is
    rendered ["0"]. *)
Theorem value_toString_is_formatValue (v : MetricValue) :
  value_toString v =
  if Nat.eqb (value_count v) 0 then "0"%string else formatValue (value_sample v).
Proof.
  destruct v as [t|t|t|t]; cbn [value_toString value_count value_sample formatValue];
    unfold toString; destruct (Nat.eqb (vcount_ t) 0); try reflexivity;
    cbn [stream_value Numeric_Z Numeric_Q]; try reflexivity; symmetry; apply formatDouble_2.
Qed.
